(** * ai-quiz-generator backend: model selection, generation strategies,
      response normalisation and the JSON routes of [backend/app.py].

    The Python module is embedded shallowly.  Python values are an inductive
    type [value]; an upstream call either returns or raises ([outcome]); the
    upstream client [genai] is a record of optional capabilities; the calls the
    program makes are recorded in a log next to the upstream's own state. *)

From Stdlib Require Import ZArith QArith String Ascii List Lia DecimalString.
From stdpp Require Import base option list gmap strings.

Open Scope string_scope.
Open Scope Z_scope.

(** ** Exceptions *)

(** The handlers of [app.py] tell three things about an exception: whether it
    is a [TypeError] ([except TypeError], line 127), whether it is an
    [AttributeError] (what [hasattr] swallows) and its text [str(e)].  Every
    exception here is an instance of [Exception], the class all the handlers of
    the module catch. *)
Inductive exn_kind : Type :=
| KTypeError
| KAttributeError
| KRuntimeError
| KOther (class_name : string).

Record exn : Type := mkExn { exn_kind_of : exn_kind; exn_str : string }.

Definition is_TypeError (e : exn) : bool :=
  match exn_kind_of e with KTypeError => true | _ => false end.

Definition is_AttributeError (e : exn) : bool :=
  match exn_kind_of e with KAttributeError => true | _ => false end.

Inductive outcome (A : Type) : Type :=
| Ret (a : A)
| Raise (e : exn).
Arguments Ret {A} a.
Arguments Raise {A} e.

(** ** Python values *)

(** [VObj attrs base] is an instance whose class adds the attributes [attrs]
    (a property may raise when read) to [base]; [VOpaque] is any other object
    without attributes of interest.  Dictionaries have string keys, as every
    key the module looks up is a string literal. *)
#[warnings="-register-all"]
Inductive value : Type :=
| VNone
| VBool (b : bool)
| VInt (z : Z)
| VStr (s : string)
| VList (l : list value)
| VTuple (l : list value)
| VDict (d : gmap string value)
| VOpaque (desc : string)
| VObj (attrs : gmap string (outcome value)) (base : value).

(** [isinstance(v, str)], and the characters of such a value. *)
Fixpoint as_str (v : value) : option string :=
  match v with
  | VStr s => Some s
  | VObj _ b => as_str b
  | _ => None
  end.

Definition is_str (v : value) : bool := bool_decide (is_Some (as_str v)).

(** [isinstance(v, dict)] *)
Fixpoint as_dict (v : value) : option (gmap string value) :=
  match v with
  | VDict d => Some d
  | VObj _ b => as_dict b
  | _ => None
  end.

(** [isinstance(v, list)] *)
Fixpoint as_list (v : value) : option (list value) :=
  match v with
  | VList l => Some l
  | VObj _ b => as_list b
  | _ => None
  end.

(** [isinstance(v, (list, tuple))] *)
Fixpoint as_list_or_tuple (v : value) : option (list value) :=
  match v with
  | VList l | VTuple l => Some l
  | VObj _ b => as_list_or_tuple b
  | _ => None
  end.

(** Attribute lookup: the instance's own attributes, then those of its base.
    Built-in values have none of the attributes the module asks for. *)
Fixpoint find_attr (v : value) (name : string) : option (outcome value) :=
  match v with
  | VObj attrs b =>
      match attrs !! name with
      | Some r => Some r
      | None => find_attr b name
      end
  | _ => None
  end.

(** [hasattr(v, name)]: false when the attribute is missing or reading it
    raises [AttributeError]; any other exception of a property propagates. *)
Definition hasattr (v : value) (name : string) : outcome bool :=
  match find_attr v name with
  | None => Ret false
  | Some (Ret _) => Ret true
  | Some (Raise e) => if is_AttributeError e then Ret false else Raise e
  end.

(** [getattr(v, name)] and [v.name] *)
Definition getattr (v : value) (name : string) : outcome value :=
  match find_attr v name with
  | None => Raise (mkExn KAttributeError ("object has no attribute '" ++ name ++ "'"))
  | Some r => r
  end.

(** Truth value of an object, as [or] and [if] test it. *)
Fixpoint truthy (v : value) : bool :=
  match v with
  | VNone => false
  | VBool b => b
  | VInt z => negb (z =? 0)
  | VStr s => negb (String.eqb s "")
  | VList l | VTuple l => match l with [] => false | _ => true end
  | VDict d => negb (bool_decide (d = ∅))
  | VOpaque _ => true
  | VObj _ b => truthy b
  end.

(** ** Strings *)

(** A [string] is a sequence of characters, one per element.  Which
    characters are white space ([str.isspace], what [str.strip()] removes) and
    how a string is lower-cased ([str.lower()]) is decided by the Python
    runtime: both are parameters, [py_isspace] here and [py_lower] below. *)

Section Strip.
Variable py_isspace : ascii -> bool.

Fixpoint lstrip (s : string) : string :=
  match s with
  | EmptyString => EmptyString
  | String c r => if py_isspace c then lstrip r else s
  end.

(** Removes trailing white space: a suffix of white space disappears. *)
Fixpoint rstrip (s : string) : string :=
  match s with
  | EmptyString => EmptyString
  | String c r =>
      match rstrip r with
      | EmptyString => if py_isspace c then EmptyString else String c EmptyString
      | r' => String c r'
      end
  end.

(** [s.strip()] *)
Definition strip (s : string) : string := rstrip (lstrip s).

End Strip.

(** [s[:n]] *)
Fixpoint str_take (n : nat) (s : string) : string :=
  match n, s with
  | S n', String c r => String c (str_take n' r)
  | _, _ => EmptyString
  end.

(** ** Response Normalizer: [_parse_response_text], lines 64-101 *)

(** A block of the function body either returns from the function
    ([Ret (Some v)]), falls through to the next statement ([Ret None]) or
    raises. *)
Definition block : Type := outcome (option value).

Definition fall_through : block := Ret None.
Definition return_ (v : value) : block := Ret (Some v).

Definition seq_block (b1 b2 : block) : block :=
  match b1 with
  | Ret None => b2
  | _ => b1
  end.

Definition bind_outcome {A B : Type} (c : outcome A) (k : A -> outcome B) : outcome B :=
  match c with
  | Ret a => k a
  | Raise e => Raise e
  end.

Declare Scope py_scope.
Delimit Scope py_scope with py.
Notation "b1 ';;;' b2" := (seq_block b1 b2)
  (at level 62, right associativity) : py_scope.
Notation "'let?' x ':=' c 'in' k" := (bind_outcome c (fun x => k))
  (at level 10, x name, c at level 100, k at level 200) : py_scope.
Open Scope py_scope.

(** [for k in keys: if k in first and isinstance(first[k], str): return first[k]] *)
Fixpoint first_str_entry (keys : list string) (first : gmap string value) : option value :=
  match keys with
  | [] => None
  | k :: rest =>
      match first !! k with
      | Some x => if is_str x then Some x else first_str_entry rest first
      | None => first_str_entry rest first
      end
  end.

Definition text_keys : list string := ["content"; "text"; "output"].

(** Lines 66-67. *)
Definition rule_text_attr (resp : value) : block :=
  let? h := hasattr resp "text" in
  let? c := (if h then let? t := getattr resp "text" in Ret (is_str t) else Ret false) in
  if (c : bool) then let? t := getattr resp "text" in return_ t
  else fall_through.

(** Lines 69-70. *)
Definition rule_dict_output (d : gmap string value) : block :=
  match d !! "output" with
  | Some o => if is_str o then return_ o else fall_through
  | None => fall_through
  end.

(** Lines 71-76. *)
Definition rule_dict_outputs (d : gmap string value) : block :=
  match d !! "outputs" with
  | Some outs =>
      match as_list outs with
      | Some (first :: _) =>
          match as_dict first with
          | Some fd => Ret (first_str_entry text_keys fd)
          | None => fall_through
          end
      | _ => fall_through
      end
  | None => fall_through
  end.

(** Lines 77-80: the entry is returned as it is. *)
Definition rule_dict_candidates (d : gmap string value) : block :=
  match d !! "candidates" with
  | Some cands =>
      match as_list cands with
      | Some (cand :: _) =>
          match as_dict cand with
          | Some cd =>
              match cd !! "output" with
              | Some o => return_ o
              | None => fall_through
              end
          | None => fall_through
          end
      | _ => fall_through
      end
  | None => fall_through
  end.

(** Lines 68-80. *)
Definition rules_dict (resp : value) : block :=
  match as_dict resp with
  | Some d => rule_dict_output d ;;; rule_dict_outputs d ;;; rule_dict_candidates d
  | None => fall_through
  end.

(** Lines 81-88. *)
Definition rule_candidates_attr (resp : value) : block :=
  let? h := hasattr resp "candidates" in
  if (h : bool) then
    let? cands := getattr resp "candidates" in
    match as_list_or_tuple cands with
    | Some (first :: _) =>
        let? ht := hasattr first "text" in
        if (ht : bool) then let? t := getattr first "text" in return_ t
        else
          match as_dict first with
          | Some fd =>
              match fd !! "output" with
              | Some o => return_ o
              | None => fall_through
              end
          | None => fall_through
          end
    | _ => fall_through
    end
  else fall_through.

(** Lines 89-98. *)
Definition rule_outputs_attr (resp : value) : block :=
  let? h := hasattr resp "outputs" in
  if (h : bool) then
    let? outs := getattr resp "outputs" in
    match as_list_or_tuple outs with
    | Some (first :: _) =>
        if is_str first then return_ first
        else
          match as_dict first with
          | Some fd => Ret (first_str_entry text_keys fd)
          | None => fall_through
          end
    | _ => fall_through
    end
  else fall_through.

(** The body of the [try], lines 66-99, without the final [return]. *)
Definition parse_rules (resp : value) : block :=
  rule_text_attr resp ;;; rules_dict resp ;;;
  rule_candidates_attr resp ;;; rule_outputs_attr resp.

Section Normalizer.
(** [str(v)] of the Python runtime. *)
Variable py_str : value -> string.

(** The result is a [value]: the function hands back whatever object the
    winning rule found. *)
Definition _parse_response_text (resp : value) : value :=
  match parse_rules resp with
  | Ret (Some v) => v
  | Ret None => VStr (py_str resp)      (* line 99 *)
  | Raise _ => VStr (py_str resp)       (* lines 100-101 *)
  end.
End Normalizer.

(** ** The upstream client *)

(** A model descriptor as [genai.list_models()] yields it.  [name] and
    [capabilities] are read with [getattr] and a default, so either may be
    missing; when present they are a string and a collection of string tags.
    [m_str] is [str(m)]. *)
Record model_desc : Type := mkModel {
  m_name : option string;
  m_capabilities : option (list string);
  m_str : string
}.

(** Keyword arguments of the generation calls. *)
Record gen_args : Type := mkGenArgs {
  arg_model : string;
  arg_text : string;
  arg_max_output_tokens : Z;
  arg_temperature : Q
}.

(** The keyword under which [responses.create] receives the prompt. *)
Inductive text_kw : Type := KwInput | KwPrompt.

(** The calls the module makes on the outside world, in the order made. *)
Inductive event : Type :=
| EvListModels
| EvGenerateText (a : gen_args)
| EvGenerate (a : gen_args)
| EvResponsesCreate (kw : text_kw) (a : gen_args)
| EvCreate (model prompt : string)
| EvLogInfo (prompt_length : nat).

(** Which of the four strategies a call belongs to (0: none of them). *)
Definition strategy_of (ev : event) : nat :=
  match ev with
  | EvGenerateText _ => 1
  | EvGenerate _ => 2
  | EvResponsesCreate _ _ => 3
  | EvCreate _ _ => 4
  | EvListModels | EvLogInfo _ => 0
  end.

(** An upstream function reads and changes the upstream's state [St]. *)
Definition upstream (St A : Type) : Type := St -> outcome A * St.

(** [genai.responses], whose [create] may itself be missing. *)
Record responses_ns (St : Type) : Type := mkResponses {
  responses_create : option (text_kw -> gen_args -> upstream St value)
}.
Arguments responses_create {St} _.
Arguments mkResponses {St} _.

(** The module [genai]: [None] is a capability [hasattr] does not find. *)
Record client (St : Type) : Type := mkClient {
  list_models : upstream St (list model_desc);
  generate_text : option (gen_args -> upstream St value);
  generate : option (gen_args -> upstream St value);
  responses : option (responses_ns St);
  create : option (string -> string -> upstream St value)
}.
Arguments list_models {St} _.
Arguments generate_text {St} _.
Arguments generate {St} _.
Arguments responses {St} _.
Arguments create {St} _.
Arguments mkClient {St} _ _ _ _ _.

(** ** Computations: upstream state, call log, exceptions *)

Record world (St : Type) : Type := mkWorld {
  up_state : St;
  call_log : list event
}.
Arguments mkWorld {St} _ _.
Arguments up_state {St} _.
Arguments call_log {St} _.

Definition M (St A : Type) : Type := world St -> outcome A * world St.

Definition ret {St A : Type} (a : A) : M St A := fun w => (Ret a, w).

Definition raise {St A : Type} (e : exn) : M St A := fun w => (Raise e, w).

Definition bind {St A B : Type} (c : M St A) (k : A -> M St B) : M St B :=
  fun w =>
    match c w with
    | (Ret a, w') => k a w'
    | (Raise e, w') => (Raise e, w')
    end.

(** [try: c except Exception as e: ...]: the outcome of [c] as a value. *)
Definition try_ {St A : Type} (c : M St A) : M St (outcome A) :=
  fun w => let (r, w') := c w in (Ret r, w').

(** A call of an upstream function: logged, then run on the upstream state. *)
Definition call {St A : Type} (ev : event) (f : upstream St A) : M St A :=
  fun w =>
    let (r, s') := f (up_state w) in
    (r, mkWorld s' (call_log w ++ [ev])).

(** A side effect that cannot fail. *)
Definition emit {St : Type} (ev : event) : M St unit :=
  fun w => (Ret tt, mkWorld (up_state w) (call_log w ++ [ev])).

Notation "x '<-' c ';;' k" := (bind c (fun x => k))
  (at level 100, c at next level, k at level 200, right associativity) : py_scope.

(** A dict literal. *)
Definition dict (entries : list (string * value)) : gmap string value :=
  list_to_map entries.

(** ** JSON bodies *)

Record response : Type := mkResponse {
  status : Z;
  json_body : gmap string value
}.

Section App.
Context {St : Type}.
(** The configured client module. *)
Variable genai : client St.
(** [str(v)] and [repr(e)] of the Python runtime. *)
Variable py_str : value -> string.
Variable py_repr_exn : exn -> string.
(** What Flask's JSON provider does with an object that is not a plain JSON
    value: whether it has an encoding, and the text of the [TypeError] when
    it has none. *)
Variable opaque_serializable : string -> bool.
Variable json_error_text : value -> string.
(** [s.lower()] and the white space test of [s.strip()] of the runtime. *)
Variable py_lower : string -> string.
Variable py_isspace : ascii -> bool.

Abbreviation parse := (_parse_response_text py_str).

(** *** Model Selector *)

(** Lines 31-37. *)
Definition _get_models_list : M St (list model_desc) :=
  r <- try_ (call EvListModels (list_models genai));;
  match r with
  | Ret models => ret models
  | Raise e => raise (mkExn KRuntimeError ("Failed to list models: " ++ exn_str e))
  end.

(** [getattr(m, "name", str(m))] *)
Definition name_of (m : model_desc) : string := default (m_str m) (m_name m).

Definition default_preferred_list : list string :=
  ["gemini-pro"; "gemini-1.5-pro"; "gemini-ultra-1.0"; "gemini-1.0";
   "text-bison@001"; "text-bison"].

(** Line 52: a later descriptor replaces an earlier one under the same key. *)
Definition available_of (models : list model_desc) : gmap string model_desc :=
  foldl (fun acc m => <[py_lower (name_of m) := m]> acc) ∅ models.

(** Lines 53-55. *)
Fixpoint pick_preferred (available : gmap string model_desc)
    (preferred_list : list string) : option string :=
  match preferred_list with
  | [] => None
  | cand :: rest =>
      match available !! py_lower cand with
      | Some m => Some (name_of m)
      | None => pick_preferred available rest
      end
  end.

Definition generation_caps : list string :=
  ["generate"; "generations"; "text"; "chat"; "responses"].

(** Lines 57-60: the test on one descriptor. *)
Definition is_capable (m : model_desc) : bool :=
  match m_capabilities m with
  | Some (c :: cs) =>
      let low_caps := map py_lower (c :: cs) in
      existsb (fun k => bool_decide (k ∈ low_caps)) generation_caps
  | _ => false
  end.

(** Lines 56-61. *)
Fixpoint pick_capable (models : list model_desc) : option string :=
  match models with
  | [] => None
  | m :: rest => if is_capable m then Some (name_of m) else pick_capable rest
  end.

(** Lines 39-62. *)
Definition choose_model (preferred_list : option (list string)) : M St string :=
  let preferred_list := default default_preferred_list preferred_list in
  models <- _get_models_list;;
  match models with
  | [] => raise (mkExn KRuntimeError "No models returned by the API (empty list).")
  | m0 :: _ =>
      let available := available_of models in
      match pick_preferred available preferred_list with
      | Some n => ret n
      | None =>
          match pick_capable models with
          | Some n => ret n
          | None => ret (name_of m0)
          end
      end
  end.

(** *** Generation Invoker *)

(** Lines 124-129 (and 211-214): [input=] first, [prompt=] on [TypeError]. *)
Definition create_input_then_prompt
    (crt : text_kw -> gen_args -> upstream St value) (a : gen_args) : M St value :=
  r <- try_ (call (EvResponsesCreate KwInput a) (crt KwInput a));;
  match r with
  | Ret resp => ret resp
  | Raise e =>
      if is_TypeError e
      then call (EvResponsesCreate KwPrompt a) (crt KwPrompt a)
      else raise e
  end.

(** The four calls; [None]: the capability is not there, nothing is called. *)
Definition call_generate_text (a : gen_args) : M St (option value) :=
  match generate_text genai with
  | Some f => resp <- call (EvGenerateText a) (f a);; ret (Some resp)
  | None => ret None
  end.

Definition call_generate (a : gen_args) : M St (option value) :=
  match generate genai with
  | Some f => resp <- call (EvGenerate a) (f a);; ret (Some resp)
  | None => ret None
  end.

Definition call_responses_create (a : gen_args) : M St (option value) :=
  match responses genai with
  | Some ns =>
      match responses_create ns with
      | Some crt => resp <- create_input_then_prompt crt a;; ret (Some resp)
      | None => ret None
      end
  | None => ret None
  end.

Definition call_create (a : gen_args) : M St (option value) :=
  match create genai with
  | Some f =>
      resp <- call (EvCreate (arg_model a) (arg_text a)) (f (arg_model a) (arg_text a));;
      ret (Some resp)
  | None => ret None
  end.

(** The body of one [try] block: the call, then [return _parse_response_text(resp)]. *)
Definition attempt (c : M St (option value)) : M St (option value) :=
  o <- c;; ret (option_map parse o).

Definition all_failed (last_exc : option exn) : exn :=
  mkExn KRuntimeError
    ("All generation attempts failed. Last error: " ++
     match last_exc with Some e => exn_str e | None => "Unknown error" end).

(** [except Exception as e: last_exc = e] *)
Definition note_exc {A : Type} (r : outcome A) (last_exc : option exn) : option exn :=
  match r with
  | Raise e => Some e
  | Ret _ => last_exc
  end.

(** Lines 103-140; the callers pass [max_output_tokens] and [temperature]. *)
Definition generate_text_with_model (model_name prompt : string)
    (max_output_tokens : Z) (temperature : Q) : M St value :=
  let a := mkGenArgs model_name prompt max_output_tokens temperature in
  let last_exc : option exn := None in
  r1 <- try_ (attempt (call_generate_text a));;
  match r1 with
  | Ret (Some text) => ret text
  | _ =>
  let last_exc := note_exc r1 last_exc in
  r2 <- try_ (attempt (call_generate a));;
  match r2 with
  | Ret (Some text) => ret text
  | _ =>
  let last_exc := note_exc r2 last_exc in
  r3 <- try_ (attempt (call_responses_create a));;
  match r3 with
  | Ret (Some text) => ret text
  | _ =>
  let last_exc := note_exc r3 last_exc in
  r4 <- try_ (attempt (call_create a));;
  match r4 with
  | Ret (Some text) => ret text
  | _ =>
  let last_exc := note_exc r4 last_exc in
  raise (all_failed last_exc)
  end end end end.

(** The invoker as the specification words it: an ordered list of
    strategies, the first that exists and completes wins, the last error is
    kept. *)
Definition strategies (a : gen_args) : list (M St (option value)) :=
  [call_generate_text a; call_generate a; call_responses_create a; call_create a].

Fixpoint first_success (ss : list (M St (option value))) (last_exc : option exn)
    : M St value :=
  match ss with
  | [] => raise (all_failed last_exc)
  | s :: rest =>
      r <- try_ s;;
      match r with
      | Ret (Some resp) => ret (parse resp)
      | Ret None => first_success rest last_exc
      | Raise e => first_success rest (Some e)
      end
  end.

(** [skipped ss w last w' last']: run in order from [w], every strategy of
    [ss] is missing or raises; [last'] is the last error met. *)
Inductive skipped : list (M St (option value)) -> world St -> option exn ->
                    world St -> option exn -> Prop :=
| skipped_nil w last : skipped [] w last w last
| skipped_missing s ss w w1 w' last last' :
    s w = (Ret None, w1) ->
    skipped ss w1 last w' last' ->
    skipped (s :: ss) w last w' last'
| skipped_raises s ss e w w1 w' last last' :
    s w = (Raise e, w1) ->
    skipped ss w1 (Some e) w' last' ->
    skipped (s :: ss) w last w' last'.

(** *** JSON encoding *)

(** Whether [jsonify] can encode a value. *)
Fixpoint json_serializable (v : value) : bool :=
  match v with
  | VNone | VBool _ | VInt _ | VStr _ => true
  | VList l | VTuple l => forallb json_serializable l
  | VDict d => map_fold (fun _ x acc => json_serializable x && acc) true d
  | VOpaque desc => opaque_serializable desc
  | VObj _ b => json_serializable b
  end.

(** [jsonify(d)]: the body, or the encoder's [TypeError]. *)
Definition jsonify (d : gmap string value) : M St (gmap string value) :=
  if json_serializable (VDict d) then ret d
  else raise (mkExn KTypeError (json_error_text (VDict d))).

(** *** Routes *)

(** [request.json or {}] *)
Definition payload_of (req_json : value) : value :=
  if truthy req_json then req_json else VDict ∅.

(** [payload.get("prompt", "").strip()]: an [AttributeError] when the payload
    has no [get] or the entry no [strip]. *)
Definition prompt_of (payload : value) : outcome string :=
  match as_dict payload with
  | Some d =>
      match as_str (default (VStr "") (d !! "prompt")) with
      | Some s => Ret (strip py_isspace s)
      | None => Raise (mkExn KAttributeError "object has no attribute 'strip'")
      end
  | None => Raise (mkExn KAttributeError "object has no attribute 'get'")
  end.

Definition lift {A : Type} (r : outcome A) : M St A := fun w => (r, w).

(** Lines 158-177.  An exception that leaves the function is an unhandled
    one. *)
Definition generate_route (req_json : value) : M St response :=
  let payload := payload_of req_json in
  prompt <- lift (prompt_of payload);;
  if String.eqb prompt "" then
    b <- jsonify (dict [("ok", VBool false);
                        ("error", VStr "Missing prompt in JSON body.")]);;
    ret (mkResponse 400 b)
  else
    _ <- emit (EvLogInfo (String.length prompt));;
    r <- try_ (choose_model None);;
    match r with
    | Raise e =>
        b <- jsonify (dict [("ok", VBool false);
                            ("error", VStr ("Model selection failed: " ++ exn_str e))]);;
        ret (mkResponse 500 b)
    | Ret model_name =>
        r' <- try_ (output_text <- generate_text_with_model model_name prompt 256 0.2;;
                    b <- jsonify (dict [("ok", VBool true);
                                        ("model_used", VStr model_name);
                                        ("output", output_text)]);;
                    ret (mkResponse 200 b));;
        match r' with
        | Ret resp => ret resp
        | Raise e =>
            b <- jsonify (dict [("ok", VBool false); ("error", VStr (exn_str e))]);;
            ret (mkResponse 500 b)
        end
    end.

(** [out[:500] if isinstance(out, str) else str(out)], line 193. *)
Definition output_preview (out : value) : string :=
  match as_str out with
  | Some s => str_take 500 s
  | None => py_str out
  end.

(** Lines 190-195. *)
Definition try_call (name : string) (fn : M St value) : M St value :=
  r <- try_ fn;;
  match r with
  | Ret out =>
      ret (VDict (dict [("method", VStr name); ("ok", VBool true);
                        ("output_preview", VStr (output_preview out))]))
  | Raise e =>
      ret (VDict (dict [("method", VStr name); ("ok", VBool false);
                        ("error", VStr (py_repr_exn e))]))
  end.

(** The lambdas of lines 198-205 and 219: the call when the attribute is
    there, otherwise a generator that raises [Exception(msg)]. *)
Definition or_missing (c : M St (option value)) (msg : string) : M St value :=
  o <- c;;
  match o with
  | Some resp => ret (parse resp)
  | None => raise (mkExn (KOther "Exception") msg)
  end.

(** Lines 180-221. *)
Definition debug_generate (req_json : value) : M St response :=
  let payload := payload_of req_json in
  stripped <- lift (prompt_of payload);;
  let prompt := if String.eqb stripped "" then "Hello debug" else stripped in
  r <- try_ (choose_model None);;
  match r with
  | Raise e =>
      b <- jsonify (dict [("ok", VBool false); ("stage", VStr "choose_model");
                          ("error", VStr (exn_str e))]);;
      ret (mkResponse 500 b)
  | Ret model_name =>
      let a := mkGenArgs model_name prompt 128 0.2 in
      let attempts : list value := [] in
      a1 <- try_call "genai.generate_text"
              (or_missing (call_generate_text a) "attribute missing");;
      let attempts := (attempts ++ [a1])%list in
      a2 <- try_call "genai.generate"
              (or_missing (call_generate a) "attribute missing");;
      let attempts := (attempts ++ [a2])%list in
      a3 <- try_call "genai.responses.create"
              (or_missing (call_responses_create a) "responses.create missing");;
      let attempts := (attempts ++ [a3])%list in
      a4 <- try_call "genai.create"
              (or_missing (call_create a) "attribute missing");;
      let attempts := (attempts ++ [a4])%list in
      let results := dict [("model_used", VStr model_name);
                           ("attempts", VList attempts)] in
      b <- jsonify (dict [("ok", VBool true); ("debug", VDict results)]);;
      ret (mkResponse 200 b)
  end.

End App.

(** ** The remaining routes and the start of the module *)

(** What [serve_frontend] answers with: a JSON body, or the file
    [send_from_directory(directory, filename)] is asked to send. *)
Inductive frontend_reply : Type :=
| JsonReply (r : response)
| SendFile (directory filename : string).

Section Surface.
Context {St : Type}.
Variable genai : client St.
Variable opaque_serializable : string -> bool.
Variable json_error_text : value -> string.
(** [getattr(m, "displayName", ...)]: the attribute when the descriptor has
    it. *)
Variable displayName_of : model_desc -> option string.
(** [app.static_folder], [os.path.join] and [os.path.exists]. *)
Variable static_folder : string.
Variable os_path_join : string -> string -> string.
Variable os_path_exists : string -> bool.

(** Lines 149-153: the entry appended for one descriptor. *)
Definition model_entry (m : model_desc) : value :=
  VDict (dict [("name", VStr (name_of m));
               ("displayName", VStr (default "" (displayName_of m)));
               ("capabilities", VList (map VStr (default [] (m_capabilities m))))]).

(** Lines 143-156. *)
Definition list_models_route : M St response :=
  r <- try_ (models <- _get_models_list genai;;
             let out := map model_entry models in
             b <- jsonify opaque_serializable json_error_text
                    (dict [("ok", VBool true); ("models", VList out)]);;
             ret (mkResponse 200 b));;
  match r with
  | Ret resp => ret resp
  | Raise e =>
      b <- jsonify opaque_serializable json_error_text
             (dict [("ok", VBool false); ("error", VStr (exn_str e))]);;
      ret (mkResponse 500 b)
  end.

(** [path.startswith("api/") or path.startswith("api\\")], line 228. *)
Definition is_api_path (path : string) : bool :=
  String.prefix "api/" path || String.prefix "api\" path.

(** Lines 224-237. *)
Definition serve_frontend (path : string) : M St frontend_reply :=
  if is_api_path path then
    b <- jsonify opaque_serializable json_error_text
           (dict [("ok", VBool false); ("error", VStr "Not Found")]);;
    ret (JsonReply (mkResponse 404 b))
  else
    let full_path := os_path_join static_folder path in
    if negb (String.eqb path "") && os_path_exists full_path then
      ret (SendFile static_folder path)
    else
      ret (SendFile static_folder "index.html").

(** [os.getenv(name)] on an environment. *)
Definition getenv (env : gmap string string) (name : string) : option string :=
  env !! name.

(** [a or b] on two results of [os.getenv]: the first unless it is [None]
    or empty. *)
Definition or_env (a b : option string) : option string :=
  match a with
  | Some (String _ _) => a
  | _ => b
  end.

(** Lines 16-18. *)
Definition load_api_key (env : gmap string string) : outcome string :=
  match or_env (getenv env "GEMINI_API_KEY") (getenv env "GOOGLE_API_KEY") with
  | Some (String c r) => Ret (String c r)
  | _ => Raise (mkExn KRuntimeError
           "Set GEMINI_API_KEY or GOOGLE_API_KEY environment variable (.env or OS).")
  end.

(** Lines 16-25: the key, then [genai.configure(api_key=API_KEY)] whose
    failure is passed over. *)
Definition module_init (env : gmap string string)
    (configure : string -> upstream St unit) (s : St) : outcome string * St :=
  match load_api_key env with
  | Raise e => (Raise e, s)
  | Ret api_key =>
      let (_, s') := configure api_key s in
      (Ret api_key, s')
  end.

End Surface.

(** ** Fixtures: a runtime and a few upstream clients *)

(** [str.lower()] and [str.isspace()] on the characters U+0000 to U+00FF:
    the letters A-Z and U+00C0-U+00DE (without the sign U+00D7) have a lower
    case 32 places up; white space is 9-13, 28-32, U+0085 and U+00A0. *)
Definition lower_char (c : ascii) : ascii :=
  let n := N_of_ascii c in
  if (((65 <=? n) && (n <=? 90)) ||
      ((192 <=? n) && (n <=? 222) && negb (n =? 215)))%N
  then ascii_of_N (n + 32) else c.

Fixpoint lower_fixture (s : string) : string :=
  match s with
  | EmptyString => EmptyString
  | String c r => String (lower_char c) (lower_fixture r)
  end.

Definition isspace_fixture (c : ascii) : bool :=
  let n := N_of_ascii c in
  (((9 <=? n) && (n <=? 13)) || ((28 <=? n) && (n <=? 32)) ||
   (n =? 133) || (n =? 160))%N.

(** [str(v)] on the values the examples use: an [int] prints in decimal, a
    [str] is itself. *)
Definition str_fixture (v : value) : string :=
  match v with
  | VNone => "None"
  | VBool true => "True"
  | VBool false => "False"
  | VInt z => DecimalString.NilZero.string_of_int (Z.to_int z)
  | VStr s => s
  | VList [] => "[]"
  | VTuple [] => "()"
  | VDict d => if bool_decide (d = ∅) then "{}" else "<object>"
  | _ => "<object>"
  end.

Definition kind_name (k : exn_kind) : string :=
  match k with
  | KTypeError => "TypeError"
  | KAttributeError => "AttributeError"
  | KRuntimeError => "RuntimeError"
  | KOther n => n
  end.

Fixpoint has_char (c : ascii) (s : string) : bool :=
  match s with
  | EmptyString => false
  | String c' r => Ascii.eqb c c' || has_char c r
  end.

(** The quote [repr] puts around a message: a double quote when the message
    holds an apostrophe and no double quote, an apostrophe otherwise. *)
Definition quote_for (msg : string) : string :=
  if has_char (ascii_of_nat 39) msg && negb (has_char (ascii_of_nat 34) msg)
  then String (ascii_of_nat 34) EmptyString
  else String (ascii_of_nat 39) EmptyString.

(** [repr(e)] of an exception with one message argument that needs no
    escapes. *)
Definition repr_fixture (e : exn) : string :=
  kind_name (exn_kind_of e) ++ "(" ++ quote_for (exn_str e) ++ exn_str e ++
  quote_for (exn_str e) ++ ")".

Definition opaque_fixture (desc : string) : bool := false.

Definition json_text_fixture (v : value) : string :=
  "Object is not JSON serializable".

Definition returns {A : Type} (a : A) : upstream unit A := fun s => (Ret a, s).
Definition raises {A : Type} (e : exn) : upstream unit A := fun s => (Raise e, s).

Definition model_B : model_desc := mkModel (Some "Model-B") None "Model(name='Model-B')".

Definition w0 : world unit := mkWorld tt [].

(** Strategy 1 raises, strategy 2 answers, strategies 3 and 4 are there. *)
Definition genai_second_wins : client unit :=
  mkClient (returns [model_B])
    (Some (fun _ => raises (mkExn (KOther "ValueError") "first is down")))
    (Some (fun _ => returns (VDict (dict [("output", VStr "two")]))))
    (Some (mkResponses (Some (fun _ _ => returns (VStr "three")))))
    (Some (fun _ _ => returns (VStr "four"))).

(** Strategies 1 and 2 raise, 3 and 4 are missing. *)
Definition genai_all_fail : client unit :=
  mkClient (returns [model_B])
    (Some (fun _ => raises (mkExn (KOther "ValueError") "first is down")))
    (Some (fun _ => raises (mkExn KRuntimeError "second is down")))
    None
    None.

(** [responses.create] rejects [input=] and accepts [prompt=]. *)
Definition genai_prompt_only : client unit :=
  mkClient (returns [model_B]) None None
    (Some (mkResponses (Some (fun kw _ =>
       match kw with
       | KwInput => raises (mkExn KTypeError "unexpected keyword argument 'input'")
       | KwPrompt => returns (VStr "three")
       end))))
    None.


(** Strategy 1 answers with a candidate whose output is [None]. *)
Definition genai_null_output : client unit :=
  mkClient (returns [model_B])
    (Some (fun _ => returns
       (VDict (dict [("candidates", VList [VDict (dict [("output", VNone)])])]))))
    None None None.

(** Only [create] is there, and it answers. *)
Definition genai_create_only : client unit :=
  mkClient (returns [model_B]) None None None
    (Some (fun _ _ => returns (VStr "four"))).

(** The upstream lists nothing, or fails to list. *)
Definition genai_no_models : client unit :=
  mkClient (returns []) None None None None.

(** The arguments the routes pass for the prompt "hi" and the model listed. *)
Definition args_hi : gen_args := mkGenArgs "Model-B" "hi" 256 0.2.


(** A response object with a [text] field that is also a mapping. *)
Definition resp_text_and_output : value :=
  VObj {["text" := Ret (VStr "from the field")]}
       (VDict (dict [("output", VStr "from the mapping")])).

(** A mapping whose first candidate carries a number as [output]. *)
Definition resp_candidate_number : value :=
  VDict (dict [("candidates", VList [VDict (dict [("output", VInt 42)])])]).

(** A response whose [text] property raises, as a blocked answer does. *)
Definition resp_text_blocked : value :=
  VObj {["text" := Raise (mkExn (KOther "ValueError") "blocked")]}
       (VDict (dict [("output", VStr "from the mapping")])).

(** A mapping with all three keys the mapping rules look at. *)
Definition resp_all_keys : value :=
  VDict (dict [("output", VStr "plain");
               ("outputs", VList [VDict (dict [("text", VStr "nested")])]);
               ("candidates", VList [VDict (dict [("output", VStr "candidate")])])]).

(** A mapping whose first output carries several entries. *)
Definition first_output_entries : gmap string value :=
  dict [("content", VInt 7); ("text", VStr "the text"); ("output", VStr "the output")].

Definition resp_outputs : value :=
  VDict (dict [("outputs", VList [VDict first_output_entries])]).

(** A mapping whose first output has nothing to offer, and a candidate. *)
Definition resp_outputs_then_candidates : value :=
  VDict (dict [("outputs", VList [VDict (dict [("content", VInt 7)])]);
               ("candidates", VList [VDict (dict [("output", VStr "candidate")])])]).

(** Descriptors with and without capability tags. *)
Definition model_plain : model_desc := mkModel (Some "embedding-001") None "Model(embedding)".
Definition model_chat : model_desc :=
  mkModel (Some "Chat-Bison") (Some ["Embed"; "CHAT"]) "Model(chat)".
Definition model_embed : model_desc :=
  mkModel (Some "embedding-002") (Some ["embed"]) "Model(embedding-2)".

Definition genai_capable_second : client unit :=
  mkClient (returns [model_plain; model_chat; model_embed]) None None None None.

Definition genai_none_capable : client unit :=
  mkClient (returns [model_plain; model_embed]) None None None None.

Definition genai_listing_fails : client unit :=
  mkClient (raises (mkExn (KOther "ConnectionError") "network down")) None None None None.

(** An environment with an empty first key. *)
Definition env_google_only : gmap string string :=
  {["GEMINI_API_KEY" := ""; "GOOGLE_API_KEY" := "g-key"]}.

Definition configure_fails : string -> upstream unit unit :=
  fun _ => raises (mkExn (KOther "ValueError") "bad key").

Definition no_display_name : model_desc -> option string := fun _ => None.

Definition only_logo_exists (p : string) : bool := String.eqb p "static/logo.png".

Definition join_fixture (a b : string) : string := a ++ "/" ++ b.

(** ** Vocabulary of the properties *)

(** [confined n c]: whatever [c] does, the calls it adds to the log all
    belong to strategy [n]. *)
Definition confined {St A : Type} (n : nat) (c : M St A) : Prop :=
  forall w r w', c w = (r, w') ->
    exists evs, call_log w' = (call_log w ++ evs)%list /\
                Forall (fun ev => strategy_of ev = n) evs.

(** What [call_responses_create] hands back for an outcome of [create]. *)
Definition wrap_some (r : outcome value) : outcome (option value) :=
  match r with
  | Ret resp => Ret (Some resp)
  | Raise e => Raise e
  end.

(** A prompt made of white space only. *)
Fixpoint all_space (py_isspace : ascii -> bool) (s : string) : bool :=
  match s with
  | EmptyString => true
  | String c r => py_isspace c && all_space py_isspace r
  end.

(** The two shapes of an attempt record of the debug route. *)
Definition ok_record (method preview : string) : value :=
  VDict (dict [("method", VStr method); ("ok", VBool true);
               ("output_preview", VStr preview)]).

Definition error_record (method err : string) : value :=
  VDict (dict [("method", VStr method); ("ok", VBool false); ("error", VStr err)]).

(** [preview_of py_str out pv]: [pv] is the first 500 characters of [out]
    when [out] is a string, and [str(out)] in full otherwise. *)
Definition preview_of (py_str : value -> string) (out : value) (pv : string) : Prop :=
  (exists s, as_str out = Some s /\ pv = str_take 500 s /\ (String.length pv <= 500)%nat) \/
  (as_str out = None /\ pv = py_str out).

(** An attempt record for [method]: marked ok with the preview of a
    normalised response, or not ok with the [repr] of an exception. *)
Definition attempt_record (py_str : value -> string) (py_repr_exn : exn -> string)
    (method : string) (rec : value) : Prop :=
  (exists resp pv, rec = ok_record method pv /\
                   preview_of py_str (_parse_response_text py_str resp) pv) \/
  (exists e, rec = error_record method (py_repr_exn e)).

(** The two shapes of the body of [/api/generate]. *)
Definition outcome_output (r : response) : Prop :=
  status r = 200 /\
  json_body r !! "ok" = Some (VBool true) /\
  is_Some (json_body r !! "output") /\
  json_body r !! "error" = None.

Definition outcome_error (r : response) : Prop :=
  (status r = 400 \/ status r = 500) /\
  json_body r !! "ok" = Some (VBool false) /\
  json_body r !! "output" = None /\
  exists msg, json_body r !! "error" = Some (VStr msg).

(** [call_for a ev]: [ev] is a generation call made with the arguments [a]
    ([create] takes the model and the prompt only). *)
Definition call_for (a : gen_args) (ev : event) : Prop :=
  match ev with
  | EvGenerateText a' | EvGenerate a' | EvResponsesCreate _ a' => a' = a
  | EvCreate m p => m = arg_model a /\ p = arg_text a
  | EvListModels | EvLogInfo _ => False
  end.

(** [bounded_calls P n c]: [c] adds at most [n] calls to the log, all of
    them satisfy [P], and it adds at least one when it hands back a
    response. *)
Definition bounded_calls {St : Type} (P : event -> Prop) (n : nat)
    (c : M St (option value)) : Prop :=
  forall w r w', c w = (r, w') ->
    exists evs, call_log w' = (call_log w ++ evs)%list /\
      Forall P evs /\ (length evs <= n)%nat /\
      (forall resp, r = Ret (Some resp) -> (1 <= length evs)%nat).

(** The arguments the debug route passes for a stripped prompt. *)
Definition debug_args (name stripped : string) : gen_args :=
  mkGenArgs name (if String.eqb stripped "" then "Hello debug" else stripped) 128 0.2.

(** The four strategies in the words of the specification, read off the
    client alone (to be compared with the calls of the source):
    [strategy_spec genai k a st] is [None] when the capability of strategy
    [k] is not on the client, and otherwise the outcome of the strategy from
    the upstream state [st], the state it leaves and the calls it makes.
    1: the generate-text call; 2: the generate call; 3: responses-create with
    [input], and again with [prompt] when that was rejected with a
    [TypeError]; 4: the create call with model and prompt only. *)
Definition strategy_spec {St : Type} (genai : client St) (k : nat) (a : gen_args)
    (st : St) : option (outcome value * St * list event) :=
  match k with
  | 1%nat =>
      match generate_text genai with
      | Some f => let (r, st') := f a st in Some (r, st', [EvGenerateText a])
      | None => None
      end
  | 2%nat =>
      match generate genai with
      | Some f => let (r, st') := f a st in Some (r, st', [EvGenerate a])
      | None => None
      end
  | 3%nat =>
      match responses genai with
      | Some ns =>
          match responses_create ns with
          | Some crt =>
              let (r, st1) := crt KwInput a st in
              match r with
              | Ret _ => Some (r, st1, [EvResponsesCreate KwInput a])
              | Raise e =>
                  if is_TypeError e then
                    let (r2, st2) := crt KwPrompt a st1 in
                    Some (r2, st2, [EvResponsesCreate KwInput a;
                                    EvResponsesCreate KwPrompt a])
                  else Some (r, st1, [EvResponsesCreate KwInput a])
              end
          | None => None
          end
      | None => None
      end
  | 4%nat =>
      match create genai with
      | Some f =>
          let (r, st') := f (arg_model a) (arg_text a) st in
          Some (r, st', [EvCreate (arg_model a) (arg_text a)])
      | None => None
      end
  | _ => None
  end.

(** [skipped_through genai a k st st' evs last]: tried in order from the
    upstream state [st], each of the strategies 1 to [k] is missing or
    raises; they leave the state [st'], make the calls [evs], and [last] is
    the last error met. *)
Inductive skipped_through {St : Type} (genai : client St) (a : gen_args) :
    nat -> St -> St -> list event -> option exn -> Prop :=
| through_none st : skipped_through genai a 0 st st [] None
| through_missing k st st' evs last :
    skipped_through genai a k st st' evs last ->
    strategy_spec genai (S k) a st' = None ->
    skipped_through genai a (S k) st st' evs last
| through_raises k st st1 evs last e st2 evs2 :
    skipped_through genai a k st st1 evs last ->
    strategy_spec genai (S k) a st1 = Some (Raise e, st2, evs2) ->
    skipped_through genai a (S k) st st2 (evs ++ evs2)%list (Some e).




(** ** Properties of the Response Normalizer *)

Section NormalizerProperties.
Variable py_str : value -> string.

Abbreviation parse := (_parse_response_text py_str).

Lemma first_str_entry_is_str keys d v :
  first_str_entry keys d = Some v -> is_str v = true.
Proof.
  induction keys as [|k keys IH]; simpl; [discriminate|].
  destruct (d !! k) as [x|]; [|exact IH].
  destruct (is_str x) eqn:Hx; [|exact IH].
  intros [= <-]. exact Hx.
Qed.

Lemma rule_text_attr_is_str resp v :
  rule_text_attr resp = Ret (Some v) -> is_str v = true.
Proof.
  unfold rule_text_attr, hasattr, getattr, bind_outcome, return_, fall_through.
  destruct (find_attr resp "text") as [[t|e]|]; simpl.
  - destruct (is_str t) eqn:Ht; [|discriminate]. intros [= <-]. exact Ht.
  - destruct (is_AttributeError e); discriminate.
  - discriminate.
Qed.

Lemma rule_dict_output_is_str d v :
  rule_dict_output d = Ret (Some v) -> is_str v = true.
Proof.
  unfold rule_dict_output, return_, fall_through.
  destruct (d !! "output") as [o|]; [|discriminate].
  destruct (is_str o) eqn:Ho; [|discriminate]. intros [= <-]. exact Ho.
Qed.

Lemma rule_dict_outputs_is_str d v :
  rule_dict_outputs d = Ret (Some v) -> is_str v = true.
Proof.
  unfold rule_dict_outputs, fall_through.
  destruct (d !! "outputs") as [outs|]; [|discriminate].
  destruct (as_list outs) as [[|first rest]|]; try discriminate.
  destruct (as_dict first) as [fd|]; [|discriminate].
  intros H. apply (first_str_entry_is_str text_keys fd). congruence.
Qed.

Lemma rule_outputs_attr_is_str resp v :
  rule_outputs_attr resp = Ret (Some v) -> is_str v = true.
Proof.
  unfold rule_outputs_attr, bind_outcome, return_, fall_through.
  destruct (hasattr resp "outputs") as [[|]|]; try discriminate.
  destruct (getattr resp "outputs") as [outs|]; [|discriminate].
  destruct (as_list_or_tuple outs) as [[|first rest]|]; try discriminate.
  destruct (is_str first) eqn:Hf; [intros [= <-]; exact Hf|].
  destruct (as_dict first) as [fd|]; [|discriminate].
  intros H. apply (first_str_entry_is_str text_keys fd). congruence.
Qed.

(** The rules that can hand back something that is not a string are the two
    [candidates] rules, which return the entry unchecked. *)
Lemma parse_rules_str_or_candidate resp v :
  parse_rules resp = Ret (Some v) ->
  is_str v = true \/
  (exists d, as_dict resp = Some d /\ rule_dict_candidates d = Ret (Some v)) \/
  rule_candidates_attr resp = Ret (Some v).
Proof.
  unfold parse_rules, seq_block.
  destruct (rule_text_attr resp) as [[t|]|] eqn:H1.
  - intros [= <-]. left. exact (rule_text_attr_is_str _ _ H1).
  - unfold rules_dict.
    destruct (as_dict resp) as [d|] eqn:Hd.
    + unfold seq_block.
      destruct (rule_dict_output d) as [[o|]|] eqn:H2.
      * intros [= <-]. left. exact (rule_dict_output_is_str _ _ H2).
      * destruct (rule_dict_outputs d) as [[o|]|] eqn:H3.
        -- intros [= <-]. left. exact (rule_dict_outputs_is_str _ _ H3).
        -- destruct (rule_dict_candidates d) as [[o|]|] eqn:H4.
           ++ intros [= <-]. right. left. exists d. split; [reflexivity|exact H4].
           ++ destruct (rule_candidates_attr resp) as [[o|]|] eqn:H5.
              ** intros [= <-]. right. right. reflexivity.
              ** intros H. left. exact (rule_outputs_attr_is_str _ _ H).
              ** discriminate.
           ++ discriminate.
        -- discriminate.
      * discriminate.
    + unfold fall_through.
      destruct (rule_candidates_attr resp) as [[o|]|] eqn:H5.
      * intros [= <-]. right. right. reflexivity.
      * intros H. left. exact (rule_outputs_attr_is_str _ _ H).
      * discriminate.
  - discriminate.
Qed.

(** When no rule returns, or one raises, the result is [str(resp)]. *)
Lemma parse_fallback resp :
  (forall v, parse_rules resp <> Ret (Some v)) ->
  parse resp = VStr (py_str resp).
Proof.
  intros H. unfold _parse_response_text.
  destruct (parse_rules resp) as [[v|]|]; [|reflexivity..].
  exfalso. exact (H v eq_refl).
Qed.

(** The normalizer is total, and its result is a string unless one of the
    two [candidates] rules produced it. *)
Lemma parse_str_or_candidate resp :
  is_str (parse resp) = true \/
  (exists d, as_dict resp = Some d /\ rule_dict_candidates d = Ret (Some (parse resp))) \/
  rule_candidates_attr resp = Ret (Some (parse resp)).
Proof.
  unfold _parse_response_text.
  destruct (parse_rules resp) as [[v|]|e] eqn:H.
  - exact (parse_rules_str_or_candidate resp v H).
  - left. reflexivity.
  - left. reflexivity.
Qed.

(** C1 (evaluated at the failing input): for the mapping
    [{"candidates": [{"output": 42}]}] the normalizer does not raise, but
    hands back the integer 42 itself, which is not a string: the [candidates]
    rule of lines 77-80 returns the entry without the [isinstance(_, str)]
    test the [output] and [outputs] rules make. *)
Theorem parse_candidate_output_not_str :
  parse resp_candidate_number = VInt 42 /\ is_str (parse resp_candidate_number) = false.
Proof. split; reflexivity. Qed.

(** C9: a response with a string-valued [text] attribute that is also a
    mapping with a string-valued "output" entry is normalised to the [text]
    attribute. *)
Theorem parse_text_attr_wins resp t d o :
  find_attr resp "text" = Some (Ret t) ->
  is_str t = true ->
  as_dict resp = Some d ->
  d !! "output" = Some o ->
  is_str o = true ->
  parse resp = t.
Proof.
  intros Ht Hs _ _ _.
  unfold _parse_response_text, parse_rules, rule_text_attr, hasattr, getattr.
  rewrite Ht. simpl. rewrite Hs. reflexivity.
Qed.

End NormalizerProperties.

Lemma parse_text_attr_wins_witness :
  _parse_response_text str_fixture resp_text_and_output = VStr "from the field".
Proof.
  apply (parse_text_attr_wins str_fixture resp_text_and_output (VStr "from the field")
           (dict [("output", VStr "from the mapping")]) (VStr "from the mapping"));
    reflexivity.
Defined.

(** ** Properties of the Model Selector *)

Section SelectorProperties.
Context {St : Type}.
Variable genai : client St.
Variable py_lower : string -> string.

(** The lookup table of line 52 maps a key to the last descriptor whose
    lower-cased name is that key. *)
Lemma available_of_lookup (models : list model_desc) (k : string) :
  available_of py_lower models !! k =
  last (filter (fun m => py_lower (name_of m) = k) models).
Proof.
  unfold available_of.
  induction models as [|m models IH] using rev_ind; [reflexivity|].
  rewrite foldl_app. simpl. rewrite lookup_insert, filter_app, last_app.
  rewrite filter_cons, filter_nil.
  destruct (decide (py_lower (name_of m) = k)) as [Hk|Hk]; simpl.
  - reflexivity.
  - exact IH.
Qed.

Lemma available_of_elem (models : list model_desc) (k : string) (m : model_desc) :
  available_of py_lower models !! k = Some m -> m ∈ models /\ py_lower (name_of m) = k.
Proof.
  rewrite available_of_lookup. intros H.
  apply last_Some_elem_of in H. apply list_elem_of_filter in H.
  destruct H as [Hk Hin]. split; assumption.
Qed.

Lemma available_of_none (models : list model_desc) (k : string) :
  (forall m, m ∈ models -> py_lower (name_of m) <> k) ->
  available_of py_lower models !! k = None.
Proof.
  intros H. destruct (available_of py_lower models !! k) as [m|] eqn:Hm; [|reflexivity].
  apply available_of_elem in Hm. destruct Hm as [Hin Hk].
  exfalso. exact (H m Hin Hk).
Qed.

Lemma pick_preferred_earliest (available : gmap string model_desc)
    (pre post : list string) (cand : string) (m : model_desc) :
  (forall c, c ∈ pre -> available !! py_lower c = None) ->
  available !! py_lower cand = Some m ->
  pick_preferred py_lower available (pre ++ cand :: post)%list = Some (name_of m).
Proof.
  intros Hpre Hc. induction pre as [|c pre IH]; simpl.
  - rewrite Hc. reflexivity.
  - rewrite (Hpre c) by (left). apply IH. intros c' Hc'. apply Hpre. right. exact Hc'.
Qed.

Lemma pick_preferred_elem (models : list model_desc) (pl : list string) (n : string) :
  pick_preferred py_lower (available_of py_lower models) pl = Some n -> n ∈ map name_of models.
Proof.
  induction pl as [|c pl IH]; simpl; [discriminate|].
  destruct (available_of py_lower models !! py_lower c) as [m|] eqn:Hm; [|exact IH].
  intros [= <-]. apply available_of_elem in Hm.
  apply list_elem_of_fmap. exists m. split; [reflexivity|apply Hm].
Qed.

Lemma pick_capable_elem (models : list model_desc) (n : string) :
  pick_capable py_lower models = Some n -> n ∈ map name_of models.
Proof.
  induction models as [|m models IH]; simpl; [discriminate|].
  destruct (is_capable py_lower m).
  - intros [= <-]. left.
  - intros H. right. exact (IH H).
Qed.

(** What the listing does to the world, whatever it answers. *)
Lemma get_models_list_run (w : world St) :
  _get_models_list genai w =
  (match fst (list_models genai (up_state w)) with
   | Ret models => Ret models
   | Raise e => Raise (mkExn KRuntimeError ("Failed to list models: " ++ exn_str e))
   end,
   mkWorld (snd (list_models genai (up_state w))) (call_log w ++ [EvListModels])).
Proof.
  unfold _get_models_list, bind, try_, call, ret, raise.
  destruct (list_models genai (up_state w)) as [[models|e] s']; reflexivity.
Qed.

(** C4: when the upstream list is not empty and [cand] is the earliest entry
    of the preferred list whose lower-cased form is the lower-cased name of
    some descriptor, [choose_model] returns the name of such a descriptor
    (the last one in the list with that lower-cased name), in the upstream's
    own casing. *)
Theorem choose_model_preferred_match (preferred_list : option (list string))
    (pre post : list string) (cand : string) (models : list model_desc)
    (w : world St) (s' : St) :
  list_models genai (up_state w) = (Ret models, s') ->
  models <> [] ->
  default default_preferred_list preferred_list = (pre ++ cand :: post)%list ->
  (forall c m, c ∈ pre -> m ∈ models -> py_lower (name_of m) <> py_lower c) ->
  (exists m, m ∈ models /\ py_lower (name_of m) = py_lower cand) ->
  exists m, m ∈ models /\ py_lower (name_of m) = py_lower cand /\
    last (filter (fun m' => py_lower (name_of m') = py_lower cand) models) = Some m /\
    choose_model genai py_lower preferred_list w =
      (Ret (name_of m), mkWorld s' (call_log w ++ [EvListModels])).
Proof.
  intros Hlist Hne Hpl Hpre [m0 [Hin0 Hk0]].
  destruct (available_of py_lower models !! py_lower cand) as [m|] eqn:Hm.
  - exists m. pose proof (available_of_elem _ _ _ Hm) as [Hin Hk].
    split; [exact Hin|]. split; [exact Hk|].
    split; [rewrite <- available_of_lookup; exact Hm|].
    unfold choose_model, bind. rewrite get_models_list_run, Hlist. simpl.
    destruct models as [|m1 ms]; [contradiction|].
    rewrite Hpl.
    rewrite (pick_preferred_earliest (available_of py_lower (m1 :: ms)) pre post cand m).
    + reflexivity.
    + intros c Hc. apply available_of_none. intros m' Hm'. exact (Hpre c m' Hc Hm').
    + exact Hm.
  - exfalso. rewrite available_of_lookup in Hm. apply last_None in Hm.
    assert (Hf : m0 ∈ filter (fun m' => py_lower (name_of m') = py_lower cand) models)
      by (apply list_elem_of_filter; split; assumption).
    rewrite Hm in Hf. inversion Hf.
Qed.

(** C5: [choose_model] raises "Failed to list models: ..." when the listing
    call raises, raises "No models returned by the API (empty list)." when the
    listing is empty, and returns the name of a listed descriptor whenever the
    listing is not empty. *)
Theorem choose_model_failures (preferred_list : option (list string)) (w : world St) :
  match list_models genai (up_state w) with
  | (Raise e, s') =>
      choose_model genai py_lower preferred_list w =
        (Raise (mkExn KRuntimeError ("Failed to list models: " ++ exn_str e)),
         mkWorld s' (call_log w ++ [EvListModels]))
  | (Ret [], s') =>
      choose_model genai py_lower preferred_list w =
        (Raise (mkExn KRuntimeError "No models returned by the API (empty list)."),
         mkWorld s' (call_log w ++ [EvListModels]))
  | (Ret (m :: ms), s') =>
      exists n, n ∈ map name_of (m :: ms) /\
        choose_model genai py_lower preferred_list w =
          (Ret n, mkWorld s' (call_log w ++ [EvListModels]))
  end.
Proof.
  unfold choose_model, bind. rewrite get_models_list_run.
  destruct (list_models genai (up_state w)) as [[[|m ms]|e] s']; cbn [fst snd];
    try reflexivity.
  destruct (pick_preferred py_lower (available_of py_lower (m :: ms))
              (default default_preferred_list preferred_list)) as [n|] eqn:Hp.
  - exists n. split; [exact (pick_preferred_elem _ _ _ Hp)|reflexivity].
  - destruct (pick_capable py_lower (m :: ms)) as [n|] eqn:Hc.
    + exists n. split; [exact (pick_capable_elem _ _ Hc)|reflexivity].
    + exists (name_of m). split; [left|reflexivity].
Qed.

End SelectorProperties.

Lemma choose_model_preferred_match_witness :
  choose_model genai_second_wins lower_fixture (Some ["model-a"; "model-b"]) w0 =
    (Ret "Model-B", mkWorld tt [EvListModels]).
Proof.
  destruct (choose_model_preferred_match genai_second_wins lower_fixture
              (Some ["model-a"; "model-b"]) ["model-a"] [] "model-b" [model_B] w0 tt)
    as [m [Hin [_ [_ Hrun]]]].
  - reflexivity.
  - discriminate.
  - reflexivity.
  - intros c m Hc Hm. apply list_elem_of_singleton in Hc, Hm. subst. discriminate.
  - exists model_B. split; [left|reflexivity].
  - apply list_elem_of_singleton in Hin. subst m. exact Hrun.
Defined.

(** ** Properties of the Generation Invoker *)



Section InvokerProperties.
Context {St : Type}.
Variable genai : client St.
Variable py_str : value -> string.

Abbreviation parse := (_parse_response_text py_str).

Lemma confined_ret {A : Type} (n : nat) (a : A) : confined n (ret a : M St A).
Proof.
  intros w r w' [= <- <-]. exists []. split; [symmetry; apply app_nil_r|constructor].
Qed.

Lemma confined_raise {A : Type} (n : nat) (e : exn) : confined n (raise e : M St A).
Proof.
  intros w r w' [= <- <-]. exists []. split; [symmetry; apply app_nil_r|constructor].
Qed.

Lemma confined_call {A : Type} (ev : event) (f : upstream St A) :
  confined (strategy_of ev) (call ev f).
Proof.
  intros w r w'. unfold call. destruct (f (up_state w)) as [r0 s'].
  intros [= <- <-]. exists [ev]. split; [reflexivity|].
  constructor; [reflexivity|constructor].
Qed.

Lemma confined_bind {A B : Type} (n : nat) (c : M St A) (k : A -> M St B) :
  confined n c -> (forall a, confined n (k a)) -> confined n (bind c k).
Proof.
  intros Hc Hk w r w'. unfold bind.
  destruct (c w) as [[a|e] w1] eqn:Hcw; destruct (Hc _ _ _ Hcw) as [evs1 [Hl1 Hf1]].
  - intros Hka. destruct (Hk a _ _ _ Hka) as [evs2 [Hl2 Hf2]].
    exists (evs1 ++ evs2)%list. split.
    + rewrite Hl2, Hl1. symmetry. apply app_assoc.
    + apply Forall_app. split; assumption.
  - intros [= <- <-]. exists evs1. split; assumption.
Qed.

Lemma confined_try {A : Type} (n : nat) (c : M St A) :
  confined n c -> confined n (try_ c).
Proof.
  intros Hc w r w'. unfold try_. destruct (c w) as [r0 w1] eqn:Hcw.
  intros [= <- <-]. exact (Hc _ _ _ Hcw).
Qed.

Lemma confined_create_input_then_prompt
    (crt : text_kw -> gen_args -> upstream St value) (a : gen_args) :
  confined 3 (create_input_then_prompt crt a).
Proof.
  unfold create_input_then_prompt. apply confined_bind.
  - apply confined_try. apply (confined_call (EvResponsesCreate KwInput a)).
  - intros [resp|e]; [apply confined_ret|].
    destruct (is_TypeError e); [|apply confined_raise].
    apply (confined_call (EvResponsesCreate KwPrompt a)).
Qed.

Lemma strategies_confined a i s :
  strategies genai a !! i = Some s -> confined (S i) s.
Proof.
  destruct i as [|[|[|[|i]]]]; simpl; intros [= <-].
  - unfold call_generate_text. destruct (generate_text genai) as [f|].
    + apply confined_bind; [apply (confined_call (EvGenerateText a))|].
      intros resp. apply confined_ret.
    + apply confined_ret.
  - unfold call_generate. destruct (generate genai) as [f|].
    + apply confined_bind; [apply (confined_call (EvGenerate a))|].
      intros resp. apply confined_ret.
    + apply confined_ret.
  - unfold call_responses_create.
    destruct (responses genai) as [ns|]; [|apply confined_ret].
    destruct (responses_create ns) as [crt|]; [|apply confined_ret].
    apply confined_bind; [apply confined_create_input_then_prompt|].
    intros resp. apply confined_ret.
  - unfold call_create. destruct (create genai) as [f|].
    + apply confined_bind;
        [apply (confined_call (EvCreate (arg_model a) (arg_text a)))|].
      intros resp. apply confined_ret.
    + apply confined_ret.
Qed.

(** The calls of a run of skipped strategies come from those strategies. *)
Lemma skipped_confined (ss : list (M St (option value))) : forall k w last w' last',
  (forall i s, ss !! i = Some s -> confined (S (k + i)) s) ->
  skipped ss w last w' last' ->
  exists evs, call_log w' = (call_log w ++ evs)%list /\
    Forall (fun ev => (k < strategy_of ev <= k + length ss)%nat) evs.
Proof.
  induction ss as [|s ss IH]; intros k w last w' last' Hconf Hsk.
  - inversion Hsk; subst. exists []. split; [symmetry; apply app_nil_r|constructor].
  - assert (Hs : confined (S (k + 0)) s) by (apply Hconf; reflexivity).
    assert (Hrest : forall i s0, ss !! i = Some s0 -> confined (S (S k + i)) s0).
    { intros i s0 Hi. replace (S k + i)%nat with (k + S i)%nat by lia.
      apply Hconf. exact Hi. }
    inversion Hsk as [|s0 ss0 wa w1 wb la lb Hrun Htail
                      |s0 ss0 e wa w1 wb la lb Hrun Htail]; subst;
      destruct (Hs _ _ _ Hrun) as [evs1 [Hl1 Hf1]];
      destruct (IH (S k) _ _ _ _ Hrest Htail) as [evs2 [Hl2 Hf2]];
      exists (evs1 ++ evs2)%list;
      (split; [rewrite Hl2, Hl1; symmetry; apply app_assoc|]);
      apply Forall_app; (split;
        [eapply Forall_impl; [exact Hf1|]; simpl; intros ev Hev; cbn [length]; lia
        |eapply Forall_impl; [exact Hf2|]; simpl; intros ev Hev; cbn [length]; lia]).
Qed.

(** The function of lines 103-140 is the first-success loop over the ordered
    list of strategies. *)
Lemma generate_text_with_model_first_success model_name prompt mot temp w :
  generate_text_with_model genai py_str model_name prompt mot temp w =
  first_success py_str (strategies genai (mkGenArgs model_name prompt mot temp)) None w.
Proof.
  unfold generate_text_with_model, strategies, first_success, attempt, bind, try_, ret,
    note_exc.
  set (a := mkGenArgs model_name prompt mot temp).
  destruct (call_generate_text genai a w) as [[[resp1|]|e1] w1]; simpl; try reflexivity;
    (destruct (call_generate genai a w1) as [[[resp2|]|e2] w2]; simpl; try reflexivity;
     (destruct (call_responses_create genai a w2) as [[[resp3|]|e3] w3]; simpl;
        try reflexivity;
      (destruct (call_create genai a w3) as [[[resp4|]|e4] w4]; simpl; reflexivity))).
Qed.

Lemma first_success_skipped (pre : list (M St (option value))) : forall rest w last w1 last1,
  skipped pre w last w1 last1 ->
  first_success py_str (pre ++ rest)%list last w = first_success py_str rest last1 w1.
Proof.
  induction pre as [|s pre IH]; intros rest w last w1 last1 Hsk.
  - inversion Hsk; subst. reflexivity.
  - inversion Hsk as [|s0 ss0 wa wm wb la lb Hrun Htail
                      |s0 ss0 e wa wm wb la lb Hrun Htail]; subst;
      simpl; unfold bind, try_; rewrite Hrun; apply IH; exact Htail.
Qed.

(** Over the list of strategy computations: when those before [s] are skipped
    and [s] hands back [resp], the invoker returns the normalised [resp] in
    the world [s] left, having logged calls of [s] and of earlier strategies
    only. *)
Lemma first_success_wins_list model_name prompt mot temp
    (pre post : list (M St (option value))) (s : M St (option value))
    (resp : value) (w w1 w2 : world St) (last : option exn) :
  strategies genai (mkGenArgs model_name prompt mot temp) = (pre ++ s :: post)%list ->
  skipped pre w None w1 last ->
  s w1 = (Ret (Some resp), w2) ->
  generate_text_with_model genai py_str model_name prompt mot temp w =
    (Ret (parse resp), w2) /\
  exists evs, call_log w2 = (call_log w ++ evs)%list /\
    Forall (fun ev => (1 <= strategy_of ev <= S (length pre))%nat) evs.
Proof.
  intros Hss Hsk Hrun. split.
  - rewrite generate_text_with_model_first_success, Hss.
    rewrite (first_success_skipped pre _ _ _ _ _ Hsk).
    simpl. unfold bind, try_. rewrite Hrun. reflexivity.
  - set (a := mkGenArgs model_name prompt mot temp) in *.
    assert (Hpre : forall i s0, pre !! i = Some s0 -> confined (S (0 + i)) s0).
    { intros i s0 Hi. apply (strategies_confined a). rewrite Hss.
      rewrite lookup_app_l; [exact Hi|]. apply lookup_lt_Some in Hi. exact Hi. }
    destruct (skipped_confined pre 0 _ _ _ _ Hpre Hsk) as [evs1 [Hl1 Hf1]].
    assert (Hs : confined (S (length pre)) s).
    { apply (strategies_confined a). rewrite Hss.
      rewrite lookup_app_r by lia. rewrite Nat.sub_diag. reflexivity. }
    destruct (Hs _ _ _ Hrun) as [evs2 [Hl2 Hf2]].
    exists (evs1 ++ evs2)%list. split.
    + rewrite Hl2, Hl1. symmetry. apply app_assoc.
    + apply Forall_app. split.
      * eapply Forall_impl; [exact Hf1|]. simpl. intros ev Hev. lia.
      * eapply Forall_impl; [exact Hf2|]. simpl. intros ev Hev. lia.
Qed.

(** The instance the specification singles out: strategy 1 raises, strategy
    2 answers. *)
Lemma generate_second_after_first_raises model_name prompt mot temp f1 f2 e resp w s1 s2 :
  let a := mkGenArgs model_name prompt mot temp in
  generate_text genai = Some f1 ->
  generate genai = Some f2 ->
  f1 a (up_state w) = (Raise e, s1) ->
  f2 a s1 = (Ret resp, s2) ->
  generate_text_with_model genai py_str model_name prompt mot temp w =
    (Ret (parse resp), mkWorld s2 (call_log w ++ [EvGenerateText a; EvGenerate a])).
Proof.
  intros a H1 H2 Hr1 Hr2.
  rewrite generate_text_with_model_first_success. fold a.
  unfold strategies, first_success, call_generate_text, call_generate, bind, try_, call, ret.
  rewrite H1, H2, Hr1. simpl. rewrite Hr2. rewrite <- app_assoc. reflexivity.
Qed.

(** Each strategy computation of the source does what [strategy_spec] says
    of the client. *)
Lemma strategy_run (a : gen_args) (k : nat) (s : M St (option value)) (w : world St) :
  strategies genai a !! k = Some s ->
  s w = match strategy_spec genai (S k) a (up_state w) with
        | None => (Ret None, w)
        | Some (r, st', evs) => (wrap_some r, mkWorld st' (call_log w ++ evs))
        end.
Proof.
  destruct k as [|[|[|[|k]]]]; simpl; intros [= <-].
  - unfold call_generate_text, bind, call, ret.
    destruct (generate_text genai) as [f|]; [|reflexivity].
    destruct (f a (up_state w)) as [[resp|e] st']; reflexivity.
  - unfold call_generate, bind, call, ret.
    destruct (generate genai) as [f|]; [|reflexivity].
    destruct (f a (up_state w)) as [[resp|e] st']; reflexivity.
  - unfold call_responses_create, create_input_then_prompt, bind, try_, call, ret, raise.
    destruct (responses genai) as [ns|]; [|reflexivity].
    destruct (responses_create ns) as [crt|]; [|reflexivity].
    destruct (crt KwInput a (up_state w)) as [[resp|e] st1]; simpl; [reflexivity|].
    destruct (is_TypeError e); simpl; [|reflexivity].
    destruct (crt KwPrompt a st1) as [[resp2|e2] st2]; simpl;
      rewrite <- app_assoc; reflexivity.
  - unfold call_create, bind, call, ret.
    destruct (create genai) as [f|]; [|reflexivity].
    destruct (f (arg_model a) (arg_text a) (up_state w)) as [[resp|e] st']; reflexivity.
Qed.

Lemma strategy_spec_index (a : gen_args) (k : nat) (st : St)
    (o : outcome value * St * list event) :
  strategy_spec genai (S k) a st = Some o ->
  exists s, strategies genai a !! k = Some s.
Proof.
  destruct k as [|[|[|[|k]]]]; simpl; try discriminate; intros _; eexists; reflexivity.
Qed.

Lemma strategy_spec_events (a : gen_args) (k : nat) (st st' : St)
    (r : outcome value) (evs : list event) :
  strategy_spec genai k a st = Some (r, st', evs) ->
  Forall (fun ev => strategy_of ev = k) evs.
Proof.
  destruct k as [|[|[|[|[|k]]]]]; simpl; try discriminate.
  - destruct (generate_text genai) as [f|]; [|discriminate].
    destruct (f a st) as [r0 st0]. intros [= <- <- <-]. repeat constructor.
  - destruct (generate genai) as [f|]; [|discriminate].
    destruct (f a st) as [r0 st0]. intros [= <- <- <-]. repeat constructor.
  - destruct (responses genai) as [ns|]; [|discriminate].
    destruct (responses_create ns) as [crt|]; [|discriminate].
    destruct (crt KwInput a st) as [[resp|e] st1].
    + intros [= <- <- <-]. repeat constructor.
    + destruct (is_TypeError e).
      * destruct (crt KwPrompt a st1) as [r2 st2]. intros [= <- <- <-].
        repeat constructor.
      * intros [= <- <- <-]. repeat constructor.
  - destruct (create genai) as [f|]; [|discriminate].
    destruct (f (arg_model a) (arg_text a) st) as [r0 st0]. intros [= <- <- <-].
    repeat constructor.
Qed.

Lemma skipped_app (ss ss' : list (M St (option value))) : forall w last w1 last1 w2 last2,
  skipped ss w last w1 last1 ->
  skipped ss' w1 last1 w2 last2 ->
  skipped (ss ++ ss')%list w last w2 last2.
Proof.
  induction ss as [|s ss IH]; intros w last w1 last1 w2 last2 H1 H2.
  - inversion H1; subst. exact H2.
  - inversion H1 as [|s0 ss0 wa wm wb la lb Hrun Htail
                     |s0 ss0 e wa wm wb la lb Hrun Htail]; subst; simpl.
    + eapply skipped_missing; [exact Hrun|]. eapply IH; eassumption.
    + eapply skipped_raises; [exact Hrun|]. eapply IH; eassumption.
Qed.

(** Strategies skipped on the client are skipped by the computations of the
    source, with the same state, calls and last error. *)
Lemma skipped_through_skipped (a : gen_args) (k : nat) (st0 st1 : St)
    (evs : list event) (last : option exn) :
  skipped_through genai a k st0 st1 evs last ->
  forall log,
    skipped (take k (strategies genai a)) (mkWorld st0 log) None
            (mkWorld st1 (log ++ evs)) last.
Proof.
  induction 1 as [st|k st st' evs last Hprev IH Hspec
                 |k st st1 evs last e st2 evs2 Hprev IH Hspec]; intros log.
  - rewrite app_nil_r. apply skipped_nil.
  - destruct (strategies genai a !! k) as [s|] eqn:Hk.
    + rewrite (take_S_r _ _ _ Hk).
      eapply skipped_app; [apply IH|].
      eapply skipped_missing; [|apply skipped_nil].
      rewrite (strategy_run a k s _ Hk). cbn [up_state]. rewrite Hspec. reflexivity.
    + apply lookup_ge_None in Hk.
      rewrite take_ge by lia. rewrite <- (take_ge (strategies genai a) k) by lia.
      apply IH.
  - destruct (strategy_spec_index a k st1 _ Hspec) as [s Hk].
    rewrite (take_S_r _ _ _ Hk).
    eapply skipped_app; [apply IH|].
    eapply skipped_raises; [|apply skipped_nil].
    rewrite (strategy_run a k s _ Hk). cbn [up_state call_log]. rewrite Hspec.
    rewrite <- app_assoc. reflexivity.
Qed.

Lemma skipped_through_events (a : gen_args) (k : nat) (st0 st1 : St)
    (evs : list event) (last : option exn) :
  skipped_through genai a k st0 st1 evs last ->
  Forall (fun ev => (1 <= strategy_of ev <= k)%nat) evs.
Proof.
  induction 1 as [st|k st st' evs last Hprev IH Hspec
                 |k st st1 evs last e st2 evs2 Hprev IH Hspec].
  - constructor.
  - eapply Forall_impl; [exact IH|]. simpl. intros ev Hev. lia.
  - apply Forall_app. split.
    + eapply Forall_impl; [exact IH|]. simpl. intros ev Hev. lia.
    + eapply Forall_impl; [exact (strategy_spec_events _ _ _ _ _ _ Hspec)|].
      simpl. intros ev Hev. lia.
Qed.

(** C2: the four strategies are tried in the fixed order and the first that
    is on the client and completes without raising wins.  When each of the
    strategies 1 to [k] is missing from the client or raises, and strategy
    [k+1] is there and answers [resp], the invoker returns the normalised
    [resp]; the state is the one strategy [k+1] left and the log holds the
    calls of the strategies 1 to [k+1] and nothing else, so that no later
    strategy is invoked. *)
Theorem generate_first_success_wins model_name prompt mot temp (k : nat)
    (resp : value) (w : world St) (st1 st2 : St) (evs evs2 : list event)
    (last : option exn) :
  skipped_through genai (mkGenArgs model_name prompt mot temp) k (up_state w) st1 evs last ->
  strategy_spec genai (S k) (mkGenArgs model_name prompt mot temp) st1 =
    Some (Ret resp, st2, evs2) ->
  generate_text_with_model genai py_str model_name prompt mot temp w =
    (Ret (parse resp), mkWorld st2 (call_log w ++ evs ++ evs2)) /\
  Forall (fun ev => (1 <= strategy_of ev <= S k)%nat) (evs ++ evs2)%list.
Proof.
  set (a := mkGenArgs model_name prompt mot temp). intros Hsk Hrun. split.
  - destruct (strategy_spec_index a k st1 _ Hrun) as [s Hk].
    destruct w as [st0 log]. cbn [up_state call_log] in *.
    pose proof (skipped_through_skipped a k st0 st1 evs last Hsk log) as Hpre.
    rewrite generate_text_with_model_first_success. fold a.
    rewrite <- (take_drop_middle (strategies genai a) k s Hk).
    rewrite (first_success_skipped _ _ _ _ _ _ Hpre).
    simpl. unfold bind, try_. rewrite (strategy_run a k s _ Hk).
    cbn [up_state call_log]. rewrite Hrun. simpl.
    rewrite <- app_assoc. reflexivity.
  - apply Forall_app. split.
    + eapply Forall_impl; [exact (skipped_through_events a k _ _ _ _ Hsk)|].
      simpl. intros ev Hev. lia.
    + eapply Forall_impl; [exact (strategy_spec_events a _ _ _ _ _ Hrun)|].
      simpl. intros ev Hev. lia.
Qed.


(** C7: with [responses.create] there, strategy 3 calls it with [input=]
    first; it calls it again, with [prompt=], exactly when the first call
    raised a [TypeError]. *)
Theorem responses_create_input_then_prompt ns crt a (w : world St) :
  responses genai = Some ns ->
  responses_create ns = Some crt ->
  exists evs,
    call_log (snd (call_responses_create genai a w)) =
      (call_log w ++ EvResponsesCreate KwInput a :: evs)%list /\
    (((exists e, fst (crt KwInput a (up_state w)) = Raise e /\ is_TypeError e = true) /\
      evs = [EvResponsesCreate KwPrompt a] /\
      fst (call_responses_create genai a w) =
        wrap_some (fst (crt KwPrompt a (snd (crt KwInput a (up_state w))))) /\
      up_state (snd (call_responses_create genai a w)) =
        snd (crt KwPrompt a (snd (crt KwInput a (up_state w))))) \/
     (~ (exists e, fst (crt KwInput a (up_state w)) = Raise e /\ is_TypeError e = true) /\
      evs = [] /\
      fst (call_responses_create genai a w) = wrap_some (fst (crt KwInput a (up_state w))) /\
      up_state (snd (call_responses_create genai a w)) =
        snd (crt KwInput a (up_state w)))).
Proof.
  intros Hns Hcrt.
  unfold call_responses_create, create_input_then_prompt, bind, try_, call, ret, raise.
  rewrite Hns, Hcrt.
  destruct (crt KwInput a (up_state w)) as [[resp|e] s1] eqn:H1; simpl.
  - exists []. split; [reflexivity|]. right.
    split; [intros [e [He _]]; discriminate|]. repeat split.
  - destruct (is_TypeError e) eqn:He; simpl.
    + exists [EvResponsesCreate KwPrompt a].
      destruct (crt KwPrompt a s1) as [[resp2|e2] s2] eqn:H2; simpl;
        (split; [rewrite <- app_assoc; reflexivity|]); left;
        (split; [exists e; split; [reflexivity|exact He]|]); repeat split.
    + exists []. split; [reflexivity|]. right.
      split; [intros [e' [[= <-] He']]; congruence|]. repeat split.
Qed.

End InvokerProperties.

Lemma generate_first_success_wins_witness :
  generate_text_with_model genai_second_wins str_fixture "Model-B" "hi" 256 0.2 w0 =
    (Ret (VStr "two"), mkWorld tt [EvGenerateText args_hi; EvGenerate args_hi]) /\
  generate_text_with_model genai_create_only str_fixture "Model-B" "hi" 256 0.2 w0 =
    (Ret (VStr "four"), mkWorld tt [EvCreate "Model-B" "hi"]).
Proof.
  split.
  - refine (proj1 (generate_first_success_wins genai_second_wins str_fixture
              "Model-B" "hi" 256 0.2 1 (VDict (dict [("output", VStr "two")]))
              w0 tt tt [EvGenerateText args_hi] [EvGenerate args_hi]
              (Some (mkExn (KOther "ValueError") "first is down")) _ _)).
    + apply (through_raises genai_second_wins args_hi 0 tt tt [] None
               (mkExn (KOther "ValueError") "first is down") tt [EvGenerateText args_hi]);
        [apply through_none|reflexivity].
    + reflexivity.
  - refine (proj1 (generate_first_success_wins genai_create_only str_fixture
              "Model-B" "hi" 256 0.2 3 (VStr "four")
              w0 tt tt [] [EvCreate "Model-B" "hi"] None _ _)).
    + apply through_missing; [|reflexivity].
      apply through_missing; [|reflexivity].
      apply through_missing; [|reflexivity].
      apply through_none.
    + reflexivity.
Defined.


Lemma responses_create_input_then_prompt_witness :
  exists evs,
    call_log (snd (call_responses_create genai_prompt_only args_hi w0)) =
      (call_log w0 ++ EvResponsesCreate KwInput args_hi :: evs)%list /\
    evs = [EvResponsesCreate KwPrompt args_hi] /\
    fst (call_responses_create genai_prompt_only args_hi w0) = Ret (Some (VStr "three")).
Proof.
  pose (a := args_hi).
  destruct (responses_create_input_then_prompt genai_prompt_only
              (mkResponses (Some (fun kw _ =>
                 match kw with
                 | KwInput => raises (mkExn KTypeError "unexpected keyword argument 'input'")
                 | KwPrompt => returns (VStr "three")
                 end)))
              (fun kw _ =>
                 match kw with
                 | KwInput => raises (mkExn KTypeError "unexpected keyword argument 'input'")
                 | KwPrompt => returns (VStr "three")
                 end)
              a w0 eq_refl eq_refl) as [evs [Hlog [[_ [Hevs [Hres _]]]|[Hno _]]]].
  - exists evs. split; [exact Hlog|]. split; [exact Hevs|exact Hres].
  - exfalso. apply Hno. eexists. split; reflexivity.
Defined.

(** ** Properties of the routes *)


Lemma lstrip_all_space (py_isspace : ascii -> bool) (s : string) :
  all_space py_isspace s = true -> lstrip py_isspace s = "".
Proof.
  induction s as [|c r IH]; simpl; [reflexivity|].
  intros H. apply andb_prop in H. destruct H as [Hc Hr].
  rewrite Hc. exact (IH Hr).
Qed.

Lemma strip_all_space (py_isspace : ascii -> bool) (s : string) :
  all_space py_isspace s = true -> strip py_isspace s = "".
Proof. intros H. unfold strip. rewrite (lstrip_all_space py_isspace s H). reflexivity. Qed.

Lemma str_take_length (n : nat) (s : string) : (String.length (str_take n s) <= n)%nat.
Proof.
  revert s. induction n as [|n IH]; intros [|c r]; simpl; try lia.
  specialize (IH r). lia.
Qed.

Section RouteProperties.
Context {St : Type}.
Variable genai : client St.
Variable py_str : value -> string.
Variable py_repr_exn : exn -> string.
Variable opaque_serializable : string -> bool.
Variable json_error_text : value -> string.
Variable py_lower : string -> string.
Variable py_isspace : ascii -> bool.

Abbreviation serializable := (json_serializable opaque_serializable).
Abbreviation generate_route' :=
  (generate_route genai py_str opaque_serializable json_error_text py_lower py_isspace).
Abbreviation debug_generate' :=
  (debug_generate genai py_str py_repr_exn opaque_serializable json_error_text
     py_lower py_isspace).

Lemma choose_model_log preferred_list (w w' : world St) r :
  choose_model genai py_lower preferred_list w = (r, w') ->
  call_log w' = (call_log w ++ [EvListModels])%list.
Proof.
  unfold choose_model, bind. rewrite get_models_list_run.
  destruct (list_models genai (up_state w)) as [[[|m ms]|e] s']; cbn [fst snd].
  - intros [= <- <-]. reflexivity.
  - destruct (pick_preferred py_lower _ _) as [n|]; [intros [= <- <-]; reflexivity|].
    destruct (pick_capable py_lower _) as [n|]; intros [= <- <-]; reflexivity.
  - intros [= <- <-]. reflexivity.
Qed.

(** The invoker only logs calls of the four strategies. *)
Lemma first_success_events (ss : list (M St (option value))) : forall k last w r w',
  (forall i s, ss !! i = Some s -> confined (S (k + i)) s) ->
  first_success py_str ss last w = (r, w') ->
  exists evs, call_log w' = (call_log w ++ evs)%list /\
    Forall (fun ev => (1 <= strategy_of ev)%nat) evs.
Proof.
  induction ss as [|s ss IH]; intros k last w r w' Hconf; simpl.
  - intros [= <- <-]. exists []. split; [symmetry; apply app_nil_r|constructor].
  - assert (Hs : confined (S (k + 0)) s) by (apply Hconf; reflexivity).
    assert (Hrest : forall i s0, ss !! i = Some s0 -> confined (S (S k + i)) s0).
    { intros i s0 Hi. replace (S k + i)%nat with (k + S i)%nat by lia.
      apply Hconf. exact Hi. }
    unfold bind, try_. destruct (s w) as [r1 w1] eqn:Hrun.
    destruct (Hs _ _ _ Hrun) as [evs1 [Hl1 Hf1]].
    assert (Hf1' : Forall (fun ev => (1 <= strategy_of ev)%nat) evs1)
      by (eapply Forall_impl; [exact Hf1|]; simpl; intros; lia).
    destruct r1 as [[resp|]|e].
    + intros [= <- <-]. exists evs1. split; assumption.
    + intros Hgo. destruct (IH (S k) _ _ _ _ Hrest Hgo) as [evs2 [Hl2 Hf2]].
      exists (evs1 ++ evs2)%list.
      split; [rewrite Hl2, Hl1; symmetry; apply app_assoc|].
      apply Forall_app. split; assumption.
    + intros Hgo. destruct (IH (S k) _ _ _ _ Hrest Hgo) as [evs2 [Hl2 Hf2]].
      exists (evs1 ++ evs2)%list.
      split; [rewrite Hl2, Hl1; symmetry; apply app_assoc|].
      apply Forall_app. split; assumption.
Qed.

Lemma generate_text_with_model_events model_name prompt mot temp (w w' : world St) r :
  generate_text_with_model genai py_str model_name prompt mot temp w = (r, w') ->
  exists evs, call_log w' = (call_log w ++ evs)%list /\
    Forall (fun ev => (1 <= strategy_of ev)%nat) evs.
Proof.
  rewrite generate_text_with_model_first_success.
  apply (first_success_events _ 0). intros i s Hi.
  exact (strategies_confined genai _ i s Hi).
Qed.

Lemma jsonify_error_body (ok_text : string) (w : world St) :
  jsonify opaque_serializable json_error_text
    (dict [("ok", VBool false); ("error", VStr ok_text)]) w =
  (Ret (dict [("ok", VBool false); ("error", VStr ok_text)]), w).
Proof. reflexivity. Qed.

Ltac error_shape :=
  split; [first [left; reflexivity|right; reflexivity]|];
  split; [reflexivity|]; split; [reflexivity|]; eexists; reflexivity.

Lemma payload_with_prompt (d : gmap string value) (v : value) :
  d !! "prompt" = Some v -> payload_of (VDict d) = VDict d.
Proof.
  intros H. unfold payload_of. simpl.
  rewrite bool_decide_eq_false_2; [reflexivity|].
  intros ->. rewrite lookup_empty in H. discriminate.
Qed.

Lemma prompt_of_str (d : gmap string value) (s : string) :
  d !! "prompt" = Some (VStr s) -> prompt_of py_isspace (VDict d) = Ret (strip py_isspace s).
Proof. intros H. unfold prompt_of. simpl. rewrite H. reflexivity. Qed.

(** C10: a body whose prompt is made of white space only gets the 400
    answer "Missing prompt in JSON body.", and the world is left as it was:
    nothing is logged, no model is listed, no generation call is made. *)
Theorem generate_route_blank_prompt (d : gmap string value) (s : string) (w : world St) :
  d !! "prompt" = Some (VStr s) ->
  all_space py_isspace s = true ->
  generate_route' (VDict d) w =
    (Ret (mkResponse 400 (dict [("ok", VBool false);
                                ("error", VStr "Missing prompt in JSON body.")])), w).
Proof.
  intros Hd Hs. unfold generate_route.
  rewrite (payload_with_prompt d _ Hd), (prompt_of_str d s Hd), (strip_all_space py_isspace s Hs).
  reflexivity.
Qed.

(** X26: for a body with a string prompt the route does not raise and
    answers with a JSON body that has exactly one of the keys "output"
    (status 200, ok true) and "error" (status 400 or 500, ok false, a string
    message); the calls it makes are none (400), or the log line, then the
    model listing, then only generation calls; and when the selection raises
    there is no generation call at all. *)
Theorem generate_route_one_of_output_error (d : gmap string value) (s : string)
    (w : world St) :
  d !! "prompt" = Some (VStr s) ->
  s <> "" ->
  exists resp w' evs,
    generate_route' (VDict d) w = (Ret resp, w') /\
    (outcome_output resp \/ outcome_error resp) /\
    call_log w' = (call_log w ++ evs)%list /\
    (evs = [] \/
     exists n gen_evs,
       evs = EvLogInfo n :: EvListModels :: gen_evs /\
       Forall (fun ev => (1 <= strategy_of ev)%nat) gen_evs /\
       (forall e w1,
          choose_model genai py_lower None
            (mkWorld (up_state w) (call_log w ++ [EvLogInfo n])) = (Raise e, w1) ->
          gen_evs = [] /\ w' = w1)).
Proof.
  intros Hd _. unfold generate_route.
  rewrite (payload_with_prompt d _ Hd), (prompt_of_str d s Hd).
  unfold bind at 1. unfold lift.
  destruct (String.eqb (strip py_isspace s) "") eqn:Hblank.
  - eexists _, w, []. split; [reflexivity|].
    split; [right; error_shape|].
    split; [symmetry; apply app_nil_r|left; reflexivity].
  - set (n := String.length (strip py_isspace s)).
    unfold bind at 1. unfold emit at 1. unfold bind at 1. unfold try_ at 1.
    set (wsel := mkWorld (up_state w) (call_log w ++ [EvLogInfo n])).
    destruct (choose_model genai py_lower None wsel) as [[model_name|e] w1] eqn:Hsel;
      pose proof (choose_model_log _ _ _ _ Hsel) as Hlog1.
    + unfold bind at 1. unfold try_ at 1. unfold bind at 1.
      destruct (generate_text_with_model genai py_str model_name (strip py_isspace s) 256 0.2 w1)
        as [[out|e] w2] eqn:Hgen;
        destruct (generate_text_with_model_events _ _ _ _ _ _ _ Hgen)
          as [gen_evs [Hlog2 Hgev]];
        assert (Hlog : call_log w2 =
                  (call_log w ++ EvLogInfo n :: EvListModels :: gen_evs)%list)
          by (rewrite Hlog2, Hlog1; unfold wsel; simpl;
              rewrite <- !app_assoc; reflexivity).
      * unfold bind at 1. unfold jsonify at 1.
        destruct (json_serializable opaque_serializable _) eqn:Hjs.
        -- eexists _, w2, _. split; [reflexivity|].
           split; [left; repeat split; eexists; reflexivity|].
           split; [exact Hlog|]. right. exists n, gen_evs.
           split; [reflexivity|]. split; [exact Hgev|].
           intros e w1' He. unfold wsel in Hsel. rewrite Hsel in He. discriminate.
        -- eexists _, w2, _. split; [reflexivity|].
           split; [right; error_shape|].
           split; [exact Hlog|]. right. exists n, gen_evs.
           split; [reflexivity|]. split; [exact Hgev|].
           intros e w1' He. unfold wsel in Hsel. rewrite Hsel in He. discriminate.
      * eexists _, w2, _. split; [reflexivity|].
        split; [right; error_shape|].
        split; [exact Hlog|]. right. exists n, gen_evs.
        split; [reflexivity|]. split; [exact Hgev|].
        intros e' w1' He. unfold wsel in Hsel. rewrite Hsel in He. discriminate.
    + eexists _, w1, _. split; [reflexivity|].
      split; [right; error_shape|].
      split; [rewrite Hlog1; unfold wsel; simpl; rewrite <- app_assoc; reflexivity|].
      right. exists n, []. split; [reflexivity|]. split; [constructor|].
      intros e' w1' He. unfold wsel in Hsel. rewrite Hsel in He.
      injection He as _ <-. split; reflexivity.
Qed.

Lemma json_serializable_dict (d : gmap string value) :
  serializable (VDict d) = true <->
  map_Forall (fun _ x => serializable x = true) d.
Proof.
  simpl.
  apply (map_fold_weak_ind
           (fun r m => r = true <-> map_Forall (fun _ x => serializable x = true) m)).
  - split; [intros _; apply map_Forall_empty|reflexivity].
  - intros i x m r Hi IH. rewrite (map_Forall_insert _ _ _ _ Hi).
    rewrite andb_true_iff, IH. reflexivity.
Qed.

Lemma debug_body_serializable (name : string) (a1 a2 a3 a4 : value) :
  serializable a1 = true -> serializable a2 = true ->
  serializable a3 = true -> serializable a4 = true ->
  serializable
    (VDict (dict [("ok", VBool true);
                  ("debug", VDict (dict [("model_used", VStr name);
                                         ("attempts", VList [a1; a2; a3; a4])]))])) = true.
Proof.
  intros H1 H2 H3 H4.
  apply json_serializable_dict. unfold dict at 1. cbn [list_to_map foldr fst snd].
  apply map_Forall_insert_2; [reflexivity|].
  apply map_Forall_insert_2; [|apply map_Forall_empty].
  apply json_serializable_dict. unfold dict. cbn [list_to_map foldr fst snd].
  apply map_Forall_insert_2; [reflexivity|].
  apply map_Forall_insert_2; [|apply map_Forall_empty].
  simpl. rewrite H1, H2, H3, H4. reflexivity.
Qed.

Lemma output_preview_spec (out : value) : preview_of py_str out (output_preview py_str out).
Proof.
  unfold preview_of, output_preview. destruct (as_str out) as [s|].
  - left. exists s. split; [reflexivity|]. split; [reflexivity|apply str_take_length].
  - right. split; reflexivity.
Qed.

(** One attempt of the debug route: it never raises, leaves the world where
    the call left it, and yields a record that [jsonify] can encode. *)
Lemma try_call_or_missing (method msg : string) (c : M St (option value)) (w : world St) :
  exists rec,
    try_call py_str py_repr_exn method (or_missing py_str c msg) w = (Ret rec, snd (c w)) /\
    attempt_record py_str py_repr_exn method rec /\
    serializable rec = true.
Proof.
  unfold try_call, or_missing, bind, try_, ret, raise.
  destruct (c w) as [[[resp|]|e] w1]; cbn [snd]; eexists;
    (split; [reflexivity|]); (split; [|reflexivity]).
  - left. exists resp, (output_preview py_str (_parse_response_text py_str resp)).
    split; [reflexivity|apply output_preview_spec].
  - right. eexists. reflexivity.
  - right. eexists. reflexivity.
Qed.

(** Each call logs its own event whenever the capability is there. *)
Lemma call_generate_text_log (a : gen_args) (w : world St) :
  exists evs, call_log (snd (call_generate_text genai a w)) = (call_log w ++ evs)%list /\
    (is_Some (generate_text genai) -> EvGenerateText a ∈ evs).
Proof.
  unfold call_generate_text, bind, call, ret.
  destruct (generate_text genai) as [f|].
  - destruct (f a (up_state w)) as [[resp|e] s']; exists [EvGenerateText a];
      (split; [reflexivity|intros _; left]).
  - exists []. split; [symmetry; apply app_nil_r|intros [f Hf]; discriminate].
Qed.

Lemma call_generate_log (a : gen_args) (w : world St) :
  exists evs, call_log (snd (call_generate genai a w)) = (call_log w ++ evs)%list /\
    (is_Some (generate genai) -> EvGenerate a ∈ evs).
Proof.
  unfold call_generate, bind, call, ret.
  destruct (generate genai) as [f|].
  - destruct (f a (up_state w)) as [[resp|e] s']; exists [EvGenerate a];
      (split; [reflexivity|intros _; left]).
  - exists []. split; [symmetry; apply app_nil_r|intros [f Hf]; discriminate].
Qed.

Lemma call_responses_create_log (a : gen_args) (w : world St) :
  exists evs, call_log (snd (call_responses_create genai a w)) = (call_log w ++ evs)%list /\
    (forall ns, responses genai = Some ns -> is_Some (responses_create ns) ->
       EvResponsesCreate KwInput a ∈ evs).
Proof.
  unfold call_responses_create, create_input_then_prompt, bind, try_, call, ret, raise.
  destruct (responses genai) as [ns|].
  - destruct (responses_create ns) as [crt|] eqn:Hc.
    + destruct (crt KwInput a (up_state w)) as [[resp|e] s1]; simpl.
      * exists [EvResponsesCreate KwInput a]. split; [reflexivity|intros; left].
      * destruct (is_TypeError e); simpl.
        -- destruct (crt KwPrompt a s1) as [[resp2|e2] s2]; simpl;
             exists [EvResponsesCreate KwInput a; EvResponsesCreate KwPrompt a];
             (split; [rewrite <- app_assoc; reflexivity|intros; left]).
        -- exists [EvResponsesCreate KwInput a]. split; [reflexivity|intros; left].
    + exists []. split; [symmetry; apply app_nil_r|].
      intros ns' [= <-] [crt Hcrt]. rewrite Hc in Hcrt. discriminate.
  - exists []. split; [symmetry; apply app_nil_r|]. intros ns' Hns'. discriminate.
Qed.

Lemma call_create_log (a : gen_args) (w : world St) :
  exists evs, call_log (snd (call_create genai a w)) = (call_log w ++ evs)%list /\
    (is_Some (create genai) -> EvCreate (arg_model a) (arg_text a) ∈ evs).
Proof.
  unfold call_create, bind, call, ret.
  destruct (create genai) as [f|].
  - destruct (f (arg_model a) (arg_text a) (up_state w)) as [[resp|e] s'];
      exists [EvCreate (arg_model a) (arg_text a)];
      (split; [reflexivity|intros _; left]).
  - exists []. split; [symmetry; apply app_nil_r|intros [f Hf]; discriminate].
Qed.




End RouteProperties.

Lemma generate_route_blank_prompt_witness :
  generate_route genai_second_wins str_fixture opaque_fixture json_text_fixture lower_fixture isspace_fixture
    (VDict (dict [("prompt", VStr "   ")])) w0 =
  (Ret (mkResponse 400 (dict [("ok", VBool false);
                              ("error", VStr "Missing prompt in JSON body.")])), w0).
Proof.
  apply (generate_route_blank_prompt genai_second_wins str_fixture opaque_fixture
           json_text_fixture lower_fixture isspace_fixture (dict [("prompt", VStr "   ")]) "   " w0);
    reflexivity.
Defined.

Lemma generate_route_one_of_output_error_witness :
  exists resp w' evs,
    generate_route genai_second_wins str_fixture opaque_fixture json_text_fixture lower_fixture isspace_fixture
      (VDict (dict [("prompt", VStr "hi")])) w0 = (Ret resp, w') /\
    (outcome_output resp \/ outcome_error resp) /\
    call_log w' = (call_log w0 ++ evs)%list /\
    (evs = [] \/
     exists n gen_evs,
       evs = EvLogInfo n :: EvListModels :: gen_evs /\
       Forall (fun ev => (1 <= strategy_of ev)%nat) gen_evs /\
       (forall e w1,
          choose_model genai_second_wins lower_fixture None
            (mkWorld (up_state w0) (call_log w0 ++ [EvLogInfo n])) = (Raise e, w1) ->
          gen_evs = [] /\ w' = w1)).
Proof.
  apply (generate_route_one_of_output_error genai_second_wins str_fixture opaque_fixture
           json_text_fixture lower_fixture isspace_fixture (dict [("prompt", VStr "hi")]) "hi" w0).
  - reflexivity.
  - discriminate.
Defined.


(** C3 (evaluated at the failing input): for the body [{"prompt": "hi"}],
    when the first strategy answers [{"candidates": [{"output": None}]}],
    the route answers 200 with "output" null and without "error": neither
    field is populated.  The candidates rule of the normalizer hands [None]
    through unchecked (the defect of C1), and line 175 puts it in the body. *)
Theorem generate_route_null_output :
  generate_route genai_null_output str_fixture opaque_fixture json_text_fixture
    lower_fixture isspace_fixture (VDict (dict [("prompt", VStr "hi")])) w0 =
    (Ret (mkResponse 200 (dict [("ok", VBool true); ("model_used", VStr "Model-B");
                                ("output", VNone)])),
     mkWorld tt [EvLogInfo 2; EvListModels; EvGenerateText args_hi]) /\
  dict [("ok", VBool true); ("model_used", VStr "Model-B"); ("output", VNone)]
    !! "output" = Some VNone /\
  dict [("ok", VBool true); ("model_used", VStr "Model-B"); ("output", VNone)]
    !! "error" = None.
Proof. repeat split. Qed.


Example str_fixture_int : str_fixture (VInt 42) = "42" /\ str_fixture (VInt (-5)) = "-5"
                          /\ str_fixture (VInt 0) = "0".
Proof. repeat split. Qed.

(** ** Further properties of the Response Normalizer *)

Section NormalizerEdges.
Variable py_str : value -> string.

Abbreviation parse := (_parse_response_text py_str).

Lemma rule_text_attr_missing resp :
  find_attr resp "text" = None -> rule_text_attr resp = Ret None.
Proof. intros H. unfold rule_text_attr, hasattr. rewrite H. reflexivity. Qed.

Lemma rule_candidates_attr_missing resp :
  find_attr resp "candidates" = None -> rule_candidates_attr resp = Ret None.
Proof. intros H. unfold rule_candidates_attr, hasattr. rewrite H. reflexivity. Qed.

Lemma rule_outputs_attr_missing resp :
  find_attr resp "outputs" = None -> rule_outputs_attr resp = Ret None.
Proof. intros H. unfold rule_outputs_attr, hasattr. rewrite H. reflexivity. Qed.

Lemma first_str_entry_earliest (pre post : list string) (k : string)
    (fd : gmap string value) (c : value) :
  (forall k' x, k' ∈ pre -> fd !! k' = Some x -> is_str x = false) ->
  fd !! k = Some c ->
  is_str c = true ->
  first_str_entry (pre ++ k :: post)%list fd = Some c.
Proof.
  intros Hpre Hk Hc. induction pre as [|k' pre IH]; simpl.
  - rewrite Hk, Hc. reflexivity.
  - assert (IH' : first_str_entry (pre ++ k :: post)%list fd = Some c).
    { apply IH. intros k'' x Hin. apply Hpre. right. exact Hin. }
    destruct (fd !! k') as [x|] eqn:Hx; [|exact IH'].
    rewrite (Hpre k' x) by (first [left|exact Hx]). exact IH'.
Qed.

(** X1: When reading [text] raises anything but an [AttributeError], the result
    is [str(resp)]: the error is swallowed and no later rule is tried, whatever
    the response holds besides. *)
Theorem parse_text_property_raises resp e :
  find_attr resp "text" = Some (Raise e) ->
  is_AttributeError e = false ->
  parse resp = VStr (py_str resp).
Proof.
  intros Ht He.
  unfold _parse_response_text, parse_rules, rule_text_attr, hasattr.
  rewrite Ht, He. reflexivity.
Qed.

(** X2: A value without attributes that is not a mapping (None, a number, a
    string, a list) is normalised to [str(resp)]. *)
Theorem parse_plain_value resp :
  (forall n, find_attr resp n = None) ->
  as_dict resp = None ->
  parse resp = VStr (py_str resp).
Proof.
  intros Hattr Hd. unfold _parse_response_text, parse_rules, rules_dict.
  rewrite (rule_text_attr_missing resp (Hattr _)), Hd,
    (rule_candidates_attr_missing resp (Hattr _)),
    (rule_outputs_attr_missing resp (Hattr _)).
  reflexivity.
Qed.

(** X3: A mapping without attributes and without the keys "output", "outputs"
    and "candidates" (the empty mapping among them) is normalised to
    [str(resp)]. *)
Theorem parse_mapping_without_keys resp d :
  (forall n, find_attr resp n = None) ->
  as_dict resp = Some d ->
  d !! "output" = None ->
  d !! "outputs" = None ->
  d !! "candidates" = None ->
  parse resp = VStr (py_str resp).
Proof.
  intros Hattr Hd H1 H2 H3.
  unfold _parse_response_text, parse_rules, rules_dict.
  rewrite (rule_text_attr_missing resp (Hattr _)), Hd,
    (rule_candidates_attr_missing resp (Hattr _)),
    (rule_outputs_attr_missing resp (Hattr _)).
  unfold rule_dict_output, rule_dict_outputs, rule_dict_candidates.
  rewrite H1, H2, H3. reflexivity.
Qed.

(** X4: In a mapping without a [text] attribute a string under "output" wins
    over whatever "outputs" and "candidates" hold. *)
Theorem parse_mapping_output_first resp d o :
  find_attr resp "text" = None ->
  as_dict resp = Some d ->
  d !! "output" = Some o ->
  is_str o = true ->
  parse resp = o.
Proof.
  intros Ht Hd Ho Hs.
  unfold _parse_response_text, parse_rules, rules_dict.
  rewrite (rule_text_attr_missing resp Ht), Hd.
  unfold rule_dict_output. rewrite Ho, Hs. reflexivity.
Qed.

(** X5: With no string under "output", the first element of a non-empty
    "outputs" list decides when it is a mapping: the result is its entry
    under the first of "content", "text", "output" that holds a string. *)
Theorem parse_outputs_key_priority resp d outs first rest fd pre k post c :
  find_attr resp "text" = None ->
  as_dict resp = Some d ->
  (forall o, d !! "output" = Some o -> is_str o = false) ->
  d !! "outputs" = Some outs ->
  as_list outs = Some (first :: rest) ->
  as_dict first = Some fd ->
  text_keys = (pre ++ k :: post)%list ->
  (forall k' x, k' ∈ pre -> fd !! k' = Some x -> is_str x = false) ->
  fd !! k = Some c ->
  is_str c = true ->
  parse resp = c.
Proof.
  intros Ht Hd Ho Houts Hl Hfd Hkeys Hpre Hk Hc.
  unfold _parse_response_text, parse_rules, rules_dict.
  rewrite (rule_text_attr_missing resp Ht), Hd.
  assert (H1 : rule_dict_output d = Ret None).
  { unfold rule_dict_output. destruct (d !! "output") as [o|]; [|reflexivity].
    rewrite (Ho o eq_refl). reflexivity. }
  assert (H2 : rule_dict_outputs d = Ret (Some c)).
  { unfold rule_dict_outputs. rewrite Houts, Hl, Hfd, Hkeys.
    rewrite (first_str_entry_earliest pre post k fd c Hpre Hk Hc). reflexivity. }
  rewrite H1, H2. reflexivity.
Qed.

(** X6: When the first element of "outputs" is a mapping without a string under
    "content", "text" or "output", the "candidates" rule is tried next and
    returns the "output" entry of the first candidate. *)
Theorem parse_outputs_then_candidates resp d outs first rest fd cands cand crest cd o :
  find_attr resp "text" = None ->
  as_dict resp = Some d ->
  (forall x, d !! "output" = Some x -> is_str x = false) ->
  d !! "outputs" = Some outs ->
  as_list outs = Some (first :: rest) ->
  as_dict first = Some fd ->
  (forall k x, k ∈ text_keys -> fd !! k = Some x -> is_str x = false) ->
  d !! "candidates" = Some cands ->
  as_list cands = Some (cand :: crest) ->
  as_dict cand = Some cd ->
  cd !! "output" = Some o ->
  parse resp = o.
Proof.
  intros Ht Hd Ho Houts Hl Hfd Hnone Hc Hcl Hcd Hco.
  unfold _parse_response_text, parse_rules, rules_dict.
  rewrite (rule_text_attr_missing resp Ht), Hd.
  assert (H1 : rule_dict_output d = Ret None).
  { unfold rule_dict_output. destruct (d !! "output") as [x|]; [|reflexivity].
    rewrite (Ho x eq_refl). reflexivity. }
  assert (Hf : forall keys, (forall k, k ∈ keys -> k ∈ text_keys) ->
                 first_str_entry keys fd = None).
  { induction keys as [|k keys IH]; intros Hsub; [reflexivity|]. simpl.
    assert (IH' : first_str_entry keys fd = None)
      by (apply IH; intros k' Hk'; apply Hsub; right; exact Hk').
    destruct (fd !! k) as [x|] eqn:Hx; [|exact IH'].
    rewrite (Hnone k x (Hsub k ltac:(left)) Hx). exact IH'. }
  assert (H2 : rule_dict_outputs d = Ret None).
  { unfold rule_dict_outputs. rewrite Houts, Hl, Hfd.
    rewrite (Hf text_keys (fun k Hk => Hk)). reflexivity. }
  assert (H3 : rule_dict_candidates d = Ret (Some o)).
  { unfold rule_dict_candidates. rewrite Hc, Hcl, Hcd, Hco. reflexivity. }
  rewrite H1, H2, H3. reflexivity.
Qed.

End NormalizerEdges.

Lemma parse_text_property_raises_witness :
  _parse_response_text str_fixture resp_text_blocked = VStr "<object>".
Proof.
  apply (parse_text_property_raises str_fixture resp_text_blocked
           (mkExn (KOther "ValueError") "blocked")); reflexivity.
Defined.

Lemma parse_plain_value_witness :
  _parse_response_text str_fixture VNone = VStr "None" /\
  _parse_response_text str_fixture (VList []) = VStr "[]" /\
  _parse_response_text str_fixture (VStr "already text") = VStr "already text".
Proof.
  split; [|split].
  - apply (parse_plain_value str_fixture VNone); reflexivity.
  - apply (parse_plain_value str_fixture (VList [])); reflexivity.
  - apply (parse_plain_value str_fixture (VStr "already text")); reflexivity.
Defined.

Lemma parse_mapping_without_keys_witness :
  _parse_response_text str_fixture (VDict ∅) = VStr "{}".
Proof.
  exact (parse_mapping_without_keys str_fixture (VDict ∅) ∅
           (fun _ => eq_refl) eq_refl eq_refl eq_refl eq_refl).
Defined.

Lemma parse_mapping_output_first_witness :
  _parse_response_text str_fixture resp_all_keys = VStr "plain".
Proof.
  apply (parse_mapping_output_first str_fixture resp_all_keys
           (dict [("output", VStr "plain");
                  ("outputs", VList [VDict (dict [("text", VStr "nested")])]);
                  ("candidates", VList [VDict (dict [("output", VStr "candidate")])])])
           (VStr "plain")); reflexivity.
Defined.

Lemma parse_outputs_key_priority_witness :
  _parse_response_text str_fixture resp_outputs = VStr "the text".
Proof.
  apply (parse_outputs_key_priority str_fixture resp_outputs
           (dict [("outputs", VList [VDict first_output_entries])])
           (VList [VDict first_output_entries]) (VDict first_output_entries) []
           first_output_entries ["content"] "text" ["output"] (VStr "the text"));
    try reflexivity.
  - intros o H. discriminate H.
  - intros k' x Hk Hx. apply list_elem_of_singleton in Hk. subst k'.
    injection Hx as <-. reflexivity.
Defined.

Lemma parse_outputs_then_candidates_witness :
  _parse_response_text str_fixture resp_outputs_then_candidates = VStr "candidate".
Proof.
  apply (parse_outputs_then_candidates str_fixture resp_outputs_then_candidates
           (dict [("outputs", VList [VDict (dict [("content", VInt 7)])]);
                  ("candidates", VList [VDict (dict [("output", VStr "candidate")])])])
           (VList [VDict (dict [("content", VInt 7)])])
           (VDict (dict [("content", VInt 7)])) []
           (dict [("content", VInt 7)])
           (VList [VDict (dict [("output", VStr "candidate")])])
           (VDict (dict [("output", VStr "candidate")])) []
           (dict [("output", VStr "candidate")]) (VStr "candidate"));
    try reflexivity.
  - intros x H. discriminate H.
  - intros k x Hk Hx. unfold text_keys in Hk.
    repeat (apply elem_of_cons in Hk; destruct Hk as [->|Hk]);
      [injection Hx as <-; reflexivity|discriminate Hx|discriminate Hx|].
    inversion Hk.
Defined.

(** ** Further properties of the Model Selector *)

Lemma lower_char_idemp (c : ascii) : lower_char (lower_char c) = lower_char c.
Proof. destruct c as [[] [] [] [] [] [] [] []]; reflexivity. Qed.

Lemma lower_fixture_idemp (s : string) : lower_fixture (lower_fixture s) = lower_fixture s.
Proof.
  induction s as [|c r IH]; simpl; [reflexivity|].
  rewrite lower_char_idemp, IH. reflexivity.
Qed.

Section SelectorEdges.
Context {St : Type}.
Variable genai : client St.
Variable py_lower : string -> string.

Lemma pick_preferred_no_match (models : list model_desc) (pl : list string) :
  (forall c m, c ∈ pl -> m ∈ models -> py_lower (name_of m) <> py_lower c) ->
  pick_preferred py_lower (available_of py_lower models) pl = None.
Proof.
  intros H. induction pl as [|c pl IH]; simpl; [reflexivity|].
  rewrite available_of_none.
  - apply IH. intros c' m Hc'. apply H. right. exact Hc'.
  - intros m Hm. apply (H c m); [left|exact Hm].
Qed.

Lemma pick_capable_first (pre post : list model_desc) (m : model_desc) :
  (forall m', m' ∈ pre -> is_capable py_lower m' = false) ->
  is_capable py_lower m = true ->
  pick_capable py_lower (pre ++ m :: post)%list = Some (name_of m).
Proof.
  intros Hpre Hm. induction pre as [|m' pre IH]; simpl.
  - rewrite Hm. reflexivity.
  - rewrite (Hpre m') by left. apply IH. intros m'' Hin. apply Hpre. right. exact Hin.
Qed.

Lemma pick_capable_nobody (models : list model_desc) :
  (forall m, m ∈ models -> is_capable py_lower m = false) ->
  pick_capable py_lower models = None.
Proof.
  intros H. induction models as [|m models IH]; simpl; [reflexivity|].
  rewrite (H m) by left. apply IH. intros m' Hin. apply H. right. exact Hin.
Qed.

Lemma pick_preferred_lower (available : gmap string model_desc) (pl : list string) :
  (forall s, py_lower (py_lower s) = py_lower s) ->
  pick_preferred py_lower available (map py_lower pl) = pick_preferred py_lower available pl.
Proof.
  intros Hidem. induction pl as [|c pl IH]; simpl; [reflexivity|].
  rewrite Hidem, IH. reflexivity.
Qed.

(** X7: A descriptor passes the capability test exactly when one of its tags,
    lower-cased, is one of "generate", "generations", "text", "chat",
    "responses". *)
Theorem is_capable_iff (m : model_desc) :
  is_capable py_lower m = true <->
  exists caps c, m_capabilities m = Some caps /\ c ∈ caps /\
                 py_lower c ∈ generation_caps.
Proof.
  unfold is_capable. split.
  - destruct (m_capabilities m) as [[|c0 cs]|]; try discriminate.
    intros H. apply existsb_exists in H. destruct H as [k [Hk Hdec]].
    apply bool_decide_eq_true in Hdec. apply list_elem_of_fmap in Hdec.
    destruct Hdec as [c [-> Hc]].
    exists (c0 :: cs), c. split; [reflexivity|]. split; [exact Hc|].
    apply list_elem_of_In. exact Hk.
  - intros [caps [c [Hcaps [Hc Hk]]]]. rewrite Hcaps.
    destruct caps as [|c0 cs]; [inversion Hc|].
    apply existsb_exists. exists (py_lower c). split.
    + apply list_elem_of_In. exact Hk.
    + apply bool_decide_eq_true. apply list_elem_of_fmap. exists c.
      split; [reflexivity|exact Hc].
Qed.

(** X8: When no preferred entry matches a listed name, the selector returns the
    name of the first listed descriptor that passes the capability test. *)
Theorem choose_model_capability_fallback (preferred_list : option (list string))
    (pre post : list model_desc) (m : model_desc) (w : world St) (s' : St) :
  list_models genai (up_state w) = (Ret (pre ++ m :: post)%list, s') ->
  (forall c m', c ∈ default default_preferred_list preferred_list ->
                m' ∈ (pre ++ m :: post)%list -> py_lower (name_of m') <> py_lower c) ->
  (forall m', m' ∈ pre -> is_capable py_lower m' = false) ->
  is_capable py_lower m = true ->
  choose_model genai py_lower preferred_list w =
    (Ret (name_of m), mkWorld s' (call_log w ++ [EvListModels])).
Proof.
  intros Hlist Hno Hpre Hm.
  unfold choose_model, bind. rewrite get_models_list_run, Hlist. cbn [fst snd].
  destruct (pre ++ m :: post)%list as [|m0 ms] eqn:Hmodels.
  - destruct pre; discriminate Hmodels.
  - rewrite (pick_preferred_no_match (m0 :: ms) _ Hno).
    rewrite <- Hmodels, (pick_capable_first pre post m Hpre Hm). reflexivity.
Qed.

(** X9: When no preferred entry matches and no descriptor passes the capability
    test, the selector returns the name of the first listed descriptor. *)
Theorem choose_model_last_resort (preferred_list : option (list string))
    (m0 : model_desc) (ms : list model_desc) (w : world St) (s' : St) :
  list_models genai (up_state w) = (Ret (m0 :: ms), s') ->
  (forall c m', c ∈ default default_preferred_list preferred_list ->
                m' ∈ m0 :: ms -> py_lower (name_of m') <> py_lower c) ->
  (forall m', m' ∈ m0 :: ms -> is_capable py_lower m' = false) ->
  choose_model genai py_lower preferred_list w =
    (Ret (name_of m0), mkWorld s' (call_log w ++ [EvListModels])).
Proof.
  intros Hlist Hno Hcap.
  unfold choose_model, bind. rewrite get_models_list_run, Hlist. cbn [fst snd].
  rewrite (pick_preferred_no_match (m0 :: ms) _ Hno).
  rewrite (pick_capable_nobody (m0 :: ms) Hcap). reflexivity.
Qed.

(** X10: The case of the letters of the preferred entries does not matter:
    lower-casing being idempotent, as [str.lower()] is, the selector answers
    the same for a preferred list and for its lower-cased copy. *)
Theorem choose_model_preferred_case (pl : list string) (w : world St) :
  (forall s, py_lower (py_lower s) = py_lower s) ->
  choose_model genai py_lower (Some (map py_lower pl)) w =
    choose_model genai py_lower (Some pl) w.
Proof.
  intros Hidem. unfold choose_model, bind.
  destruct (_get_models_list genai w) as [[[|m0 ms]|e] w1]; try reflexivity.
  change (default default_preferred_list (Some (map py_lower pl))) with (map py_lower pl).
  change (default default_preferred_list (Some pl)) with pl.
  rewrite (pick_preferred_lower _ _ Hidem). reflexivity.
Qed.

End SelectorEdges.

Lemma choose_model_capability_fallback_witness :
  choose_model genai_capable_second lower_fixture None w0 = (Ret "Chat-Bison", mkWorld tt [EvListModels]).
Proof.
  apply (choose_model_capability_fallback genai_capable_second lower_fixture None
           [model_plain] [model_embed] model_chat w0 tt).
  - reflexivity.
  - intros c m' Hc Hm. cbn [default] in Hc. unfold default_preferred_list in Hc.
    repeat (apply elem_of_cons in Hm; destruct Hm as [->|Hm]); [| | |inversion Hm];
      repeat (apply elem_of_cons in Hc; destruct Hc as [->|Hc]);
      first [discriminate|inversion Hc].
  - intros m' Hm. apply list_elem_of_singleton in Hm. subst m'. reflexivity.
  - reflexivity.
Defined.

Lemma choose_model_last_resort_witness :
  choose_model genai_none_capable lower_fixture None w0 =
    (Ret "embedding-001", mkWorld tt [EvListModels]).
Proof.
  apply (choose_model_last_resort genai_none_capable lower_fixture None
           model_plain [model_embed] w0 tt).
  - reflexivity.
  - intros c m' Hc Hm. cbn [default] in Hc. unfold default_preferred_list in Hc.
    repeat (apply elem_of_cons in Hm; destruct Hm as [->|Hm]); [| |inversion Hm];
      repeat (apply elem_of_cons in Hc; destruct Hc as [->|Hc]);
      first [discriminate|inversion Hc].
  - intros m' Hm.
    repeat (apply elem_of_cons in Hm; destruct Hm as [->|Hm]);
      first [reflexivity|inversion Hm].
Defined.

Lemma choose_model_preferred_case_witness :
  choose_model genai_capable_second lower_fixture
    (Some (map lower_fixture ["Embedding-002"; "CHAT-BISON"])) w0 =
  choose_model genai_capable_second lower_fixture
    (Some ["Embedding-002"; "CHAT-BISON"]) w0.
Proof.
  apply (choose_model_preferred_case genai_capable_second lower_fixture
           ["Embedding-002"; "CHAT-BISON"] w0).
  exact lower_fixture_idemp.
Defined.

(** ** Further properties of the Generation Invoker *)

Section InvokerEdges.
Context {St : Type}.
Variable genai : client St.
Variable py_str : value -> string.

Ltac no_call :=
  intros w r w' [= <- <-]; exists []; split; [symmetry; apply app_nil_r|];
  split; [constructor|]; split; [simpl; lia|]; intros resp [=].

Lemma bounded_call_generate_text (a : gen_args) :
  bounded_calls (call_for a) 1 (call_generate_text genai a).
Proof.
  unfold call_generate_text. destruct (generate_text genai) as [f|]; [|no_call].
  intros w r w'. unfold bind, call, ret.
  destruct (f a (up_state w)) as [[resp|e] s1]; intros [= <- <-];
    exists [EvGenerateText a]; (split; [reflexivity|]);
    (split; [constructor; [reflexivity|constructor]|]);
    (split; [simpl; lia|]); intros resp' _; simpl; lia.
Qed.

Lemma bounded_call_generate (a : gen_args) :
  bounded_calls (call_for a) 1 (call_generate genai a).
Proof.
  unfold call_generate. destruct (generate genai) as [f|]; [|no_call].
  intros w r w'. unfold bind, call, ret.
  destruct (f a (up_state w)) as [[resp|e] s1]; intros [= <- <-];
    exists [EvGenerate a]; (split; [reflexivity|]);
    (split; [constructor; [reflexivity|constructor]|]);
    (split; [simpl; lia|]); intros resp' _; simpl; lia.
Qed.

Lemma bounded_call_responses_create (a : gen_args) :
  bounded_calls (call_for a) 2 (call_responses_create genai a).
Proof.
  unfold call_responses_create.
  destruct (responses genai) as [ns|]; [|no_call].
  destruct (responses_create ns) as [crt|]; [|no_call].
  intros w r w'. unfold create_input_then_prompt, bind, try_, call, ret, raise.
  destruct (crt KwInput a (up_state w)) as [[resp|e] s1]; simpl.
  - intros [= <- <-]. exists [EvResponsesCreate KwInput a].
    split; [reflexivity|]. split; [constructor; [reflexivity|constructor]|].
    split; [simpl; lia|]. intros resp' _. simpl. lia.
  - destruct (is_TypeError e); simpl.
    + destruct (crt KwPrompt a s1) as [[resp2|e2] s2]; simpl; intros [= <- <-];
        exists [EvResponsesCreate KwInput a; EvResponsesCreate KwPrompt a];
        (split; [rewrite <- app_assoc; reflexivity|]);
        (split; [repeat constructor|]);
        (split; [simpl; lia|]); intros resp' _; simpl; lia.
    + intros [= <- <-]. exists [EvResponsesCreate KwInput a].
      split; [reflexivity|]. split; [constructor; [reflexivity|constructor]|].
      split; [simpl; lia|]. intros resp' _. simpl. lia.
Qed.

Lemma bounded_call_create (a : gen_args) :
  bounded_calls (call_for a) 1 (call_create genai a).
Proof.
  unfold call_create. destruct (create genai) as [f|]; [|no_call].
  intros w r w'. unfold bind, call, ret.
  destruct (f (arg_model a) (arg_text a) (up_state w)) as [[resp|e] s1];
    intros [= <- <-];
    exists [EvCreate (arg_model a) (arg_text a)]; (split; [reflexivity|]);
    (split; [constructor; [split; reflexivity|constructor]|]);
    (split; [simpl; lia|]); intros resp' _; simpl; lia.
Qed.

Lemma first_success_bounded (P : event -> Prop) (ss : list (M St (option value))) :
  forall (ns : list nat) last w r w',
  Forall2 (fun s n => bounded_calls P n s) ss ns ->
  first_success py_str ss last w = (r, w') ->
  exists evs, call_log w' = (call_log w ++ evs)%list /\
    Forall P evs /\ (length evs <= list_sum ns)%nat /\
    (forall v, r = Ret v -> (1 <= length evs)%nat).
Proof.
  induction ss as [|s ss IH]; intros ns last w r w' Hb; simpl.
  - intros [= <- <-]. exists []. split; [symmetry; apply app_nil_r|].
    split; [constructor|]. split; [simpl; lia|]. intros v [=].
  - inversion Hb as [|s0 n ss0 ns0 Hs Hrest]; subst.
    unfold bind, try_. destruct (s w) as [r1 w1] eqn:Hrun.
    destruct (Hs _ _ _ Hrun) as [evs1 [Hl1 [Hp1 [Hn1 Hone]]]].
    assert (Hgo : forall last', first_success py_str ss last' w1 = (r, w') ->
              exists evs, call_log w' = (call_log w ++ evs)%list /\
                Forall P evs /\ (length evs <= list_sum (n :: ns0))%nat /\
                (forall v, r = Ret v -> (1 <= length evs)%nat)).
    { intros last' Hrec. destruct (IH _ _ _ _ _ Hrest Hrec) as [evs2 [Hl2 [Hp2 [Hn2 Hv]]]].
      exists (evs1 ++ evs2)%list.
      split; [rewrite Hl2, Hl1; symmetry; apply app_assoc|].
      split; [apply Forall_app; split; assumption|].
      rewrite length_app. split; [simpl; lia|].
      intros v Hr. specialize (Hv v Hr). lia. }
    destruct r1 as [[resp|]|e]; [|apply Hgo..].
    intros [= <- <-]. exists evs1. split; [exact Hl1|]. split; [exact Hp1|].
    split; [simpl; lia|]. intros v _. exact (Hone resp eq_refl).
Qed.

(** X11: Whatever the upstream does, the invoker makes at most five calls (two
    of them only for [responses.create]), every one of them for the model
    and the prompt it was given, and it does not return a text without
    having made a call. *)
Theorem generate_calls_bounded model_name prompt mot temp (w : world St) :
  exists evs,
    call_log (snd (generate_text_with_model genai py_str model_name prompt mot temp w)) =
      (call_log w ++ evs)%list /\
    Forall (call_for (mkGenArgs model_name prompt mot temp)) evs /\
    (length evs <= 5)%nat /\
    (forall v,
       fst (generate_text_with_model genai py_str model_name prompt mot temp w) = Ret v ->
       (1 <= length evs)%nat).
Proof.
  set (a := mkGenArgs model_name prompt mot temp).
  destruct (generate_text_with_model genai py_str model_name prompt mot temp w)
    as [r w'] eqn:Hrun.
  rewrite generate_text_with_model_first_success in Hrun. fold a in Hrun.
  assert (Hb : Forall2 (fun s n => bounded_calls (call_for a) n s)
                 (strategies genai a) [1; 1; 2; 1]%nat).
  { unfold strategies.
    constructor; [apply bounded_call_generate_text|].
    constructor; [apply bounded_call_generate|].
    constructor; [apply bounded_call_responses_create|].
    constructor; [apply bounded_call_create|constructor]. }
  destruct (first_success_bounded _ _ _ _ _ _ _ Hb Hrun) as [evs [Hl [Hp [Hn Hv]]]].
  exists evs. cbn [fst snd]. repeat split; assumption.
Qed.

(** X12: A client without any of the four capabilities: the invoker raises
    "All generation attempts failed. Last error: Unknown error" and calls
    nothing. *)
Theorem generate_no_capability model_name prompt mot temp (w : world St) :
  generate_text genai = None ->
  generate genai = None ->
  (forall ns, responses genai = Some ns -> responses_create ns = None) ->
  create genai = None ->
  generate_text_with_model genai py_str model_name prompt mot temp w =
    (Raise (mkExn KRuntimeError
              "All generation attempts failed. Last error: Unknown error"), w).
Proof.
  intros H1 H2 H3 H4.
  unfold generate_text_with_model, attempt, call_generate_text, call_generate,
    call_responses_create, call_create.
  rewrite H1, H2, H4.
  destruct (responses genai) as [ns|]; [rewrite (H3 ns eq_refl)|]; reflexivity.
Qed.

(** X27: when each of the four strategies is missing from the client or
    raises, tried in order, the invoker raises "All generation attempts
    failed. Last error: ..." with the text of the last error met ("Unknown
    error" when none was there to raise), in the state the last call left and
    with the calls of the strategies that are there, in order. *)
Theorem generate_fails_when_none_answers model_name prompt mot temp (w : world St)
    (st' : St) (evs : list event) (last : option exn) :
  skipped_through genai (mkGenArgs model_name prompt mot temp) 4 (up_state w) st' evs last ->
  generate_text_with_model genai py_str model_name prompt mot temp w =
    (Raise (mkExn KRuntimeError
              ("All generation attempts failed. Last error: " ++
               match last with Some e => exn_str e | None => "Unknown error" end)),
     mkWorld st' (call_log w ++ evs)).
Proof.
  set (a := mkGenArgs model_name prompt mot temp). intros Hsk.
  destruct w as [st0 log]. cbn [up_state call_log] in *.
  pose proof (skipped_through_skipped genai a 4 st0 st' evs last Hsk log) as Hall.
  rewrite generate_text_with_model_first_success. fold a.
  change (strategies genai a) with (take 4 (strategies genai a) ++ [])%list.
  rewrite (first_success_skipped py_str _ _ _ _ _ _ Hall). reflexivity.
Qed.

End InvokerEdges.

Lemma generate_fails_when_none_answers_witness :
  generate_text_with_model genai_all_fail str_fixture "Model-B" "hi" 256 0.2 w0 =
    (Raise (mkExn KRuntimeError
              "All generation attempts failed. Last error: second is down"),
     mkWorld tt [EvGenerateText args_hi; EvGenerate args_hi]).
Proof.
  refine (generate_fails_when_none_answers genai_all_fail str_fixture
            "Model-B" "hi" 256 0.2 w0 tt [EvGenerateText args_hi; EvGenerate args_hi]
            (Some (mkExn KRuntimeError "second is down")) _).
  apply through_missing; [|reflexivity].
  apply through_missing; [|reflexivity].
  apply (through_raises genai_all_fail args_hi 1 tt tt [EvGenerateText args_hi]
           (Some (mkExn (KOther "ValueError") "first is down"))
           (mkExn KRuntimeError "second is down") tt [EvGenerate args_hi]);
    [|reflexivity].
  apply (through_raises genai_all_fail args_hi 0 tt tt [] None
           (mkExn (KOther "ValueError") "first is down") tt [EvGenerateText args_hi]);
    [apply through_none|reflexivity].
Defined.

Lemma generate_no_capability_witness :
  generate_text_with_model genai_no_models str_fixture "Model-B" "hi" 256 0.2 w0 =
    (Raise (mkExn KRuntimeError
              "All generation attempts failed. Last error: Unknown error"), w0).
Proof.
  apply (generate_no_capability genai_no_models str_fixture "Model-B" "hi" 256 0.2 w0).
  - reflexivity.
  - reflexivity.
  - intros ns H. discriminate H.
  - reflexivity.
Defined.

(** ** Further properties of the routes *)

Lemma str_take_all (n : nat) (s : string) :
  (String.length s <= n)%nat -> str_take n s = s.
Proof.
  revert s. induction n as [|n IH]; intros [|c r]; simpl; intros H;
    try reflexivity; try lia.
  rewrite IH by lia. reflexivity.
Qed.

Section RouteEdges.
Context {St : Type}.
Variable genai : client St.
Variable py_str : value -> string.
Variable py_repr_exn : exn -> string.
Variable opaque_serializable : string -> bool.
Variable json_error_text : value -> string.
Variable py_lower : string -> string.
Variable py_isspace : ascii -> bool.

Abbreviation serializable := (json_serializable opaque_serializable).
Abbreviation generate_route' :=
  (generate_route genai py_str opaque_serializable json_error_text py_lower py_isspace).
Abbreviation debug_generate' :=
  (debug_generate genai py_str py_repr_exn opaque_serializable json_error_text
     py_lower py_isspace).

Ltac error_body :=
  match goal with
  | |- context [jsonify ?a ?b (dict [_; ("error", VStr ?t)]) ?d] =>
      rewrite (jsonify_error_body a b t d)
  end.

Lemma success_body_serializable (name : string) (out : value) :
  serializable (VDict (dict [("ok", VBool true); ("model_used", VStr name);
                             ("output", out)])) = serializable out.
Proof.
  apply Bool.eq_true_iff_eq. rewrite json_serializable_dict. split.
  - intros H. exact (H "output" out eq_refl).
  - intros H. unfold dict. cbn [list_to_map foldr fst snd].
    apply map_Forall_insert_2; [reflexivity|].
    apply map_Forall_insert_2; [reflexivity|].
    apply map_Forall_insert_2; [exact H|apply map_Forall_empty].
Qed.

(** X13: A body without a "prompt" entry (JSON null and the empty object among
    them) gets the 400 answer, and nothing is logged or called. *)
Theorem generate_route_missing_prompt (req : value) (d : gmap string value)
    (w : world St) :
  as_dict (payload_of req) = Some d ->
  d !! "prompt" = None ->
  generate_route' req w =
    (Ret (mkResponse 400 (dict [("ok", VBool false);
                                ("error", VStr "Missing prompt in JSON body.")])), w).
Proof.
  intros Hd Hp. unfold generate_route, prompt_of. rewrite Hd, Hp. reflexivity.
Qed.

(** X14: A body that is not an object (a non-empty list, a number, a string), or
    whose "prompt" is not a string, makes the route raise an
    [AttributeError] that nothing handles, before anything is logged or
    called. *)
Theorem generate_route_bad_body (req : value) (w : world St) :
  as_dict (payload_of req) = None \/
  (exists d v, as_dict (payload_of req) = Some d /\ d !! "prompt" = Some v /\
               as_str v = None) ->
  exists e, generate_route' req w = (Raise e, w) /\ is_AttributeError e = true.
Proof.
  intros [Hd|[d [v [Hd [Hp Hv]]]]]; unfold generate_route, prompt_of, bind, lift;
    rewrite Hd.
  - eexists. split; reflexivity.
  - rewrite Hp. cbn [default from_option id]. rewrite Hv.
    eexists. split; reflexivity.
Qed.

(** X15: With a usable prompt, a listing that raises or is empty gives status 500
    with "Model selection failed: " before the selector's message; the log
    line and the listing are the only calls. *)
Theorem generate_route_selection_failed (d : gmap string value) (s : string)
    (w : world St) :
  d !! "prompt" = Some (VStr s) ->
  strip py_isspace s <> "" ->
  match list_models genai (up_state w) with
  | (Raise e, s') =>
      generate_route' (VDict d) w =
        (Ret (mkResponse 500
                (dict [("ok", VBool false);
                       ("error", VStr ("Model selection failed: Failed to list models: "
                                       ++ exn_str e))])),
         mkWorld s' (call_log w ++ [EvLogInfo (String.length (strip py_isspace s)); EvListModels]))
  | (Ret [], s') =>
      generate_route' (VDict d) w =
        (Ret (mkResponse 500
                (dict [("ok", VBool false);
                       ("error", VStr "Model selection failed: No models returned by the API (empty list).")])),
         mkWorld s' (call_log w ++ [EvLogInfo (String.length (strip py_isspace s)); EvListModels]))
  | (Ret (_ :: _), _) => True
  end.
Proof.
  intros Hd Hs. apply String.eqb_neq in Hs.
  destruct (list_models genai (up_state w)) as [[[|m ms]|e] s'] eqn:Hlm;
    [|exact I|];
    unfold generate_route;
    rewrite (payload_with_prompt d _ Hd), (prompt_of_str py_isspace d s Hd);
    unfold bind at 1; unfold lift; rewrite Hs;
    unfold bind at 1; unfold emit at 1; unfold bind at 1; unfold try_ at 1;
    unfold choose_model at 1; unfold bind at 1; rewrite get_models_list_run;
    cbn [up_state call_log]; rewrite Hlm; cbn [fst snd];
    unfold raise, bind; cbv beta; error_body; unfold ret;
    rewrite <- app_assoc; reflexivity.
Qed.

(** X16: With a usable prompt and a selected model, the route asks the invoker
    for the stripped prompt with 256 tokens and temperature 0.2, and answers
    200 with the model and the output when the output can be encoded, 500
    with the encoder's message when it cannot, and 500 with the invoker's
    message when the invoker raised. *)
Theorem generate_route_after_selection (d : gmap string value) (s name : string)
    (w w1 : world St) :
  d !! "prompt" = Some (VStr s) ->
  strip py_isspace s <> "" ->
  choose_model genai py_lower None
    (mkWorld (up_state w) (call_log w ++ [EvLogInfo (String.length (strip py_isspace s))])) =
    (Ret name, w1) ->
  generate_route' (VDict d) w =
    (Ret (match fst (generate_text_with_model genai py_str name (strip py_isspace s) 256 0.2 w1) with
          | Ret out =>
              if serializable out
              then mkResponse 200 (dict [("ok", VBool true); ("model_used", VStr name);
                                         ("output", out)])
              else mkResponse 500
                     (dict [("ok", VBool false);
                            ("error", VStr (json_error_text
                               (VDict (dict [("ok", VBool true);
                                             ("model_used", VStr name);
                                             ("output", out)]))))])
          | Raise e => mkResponse 500 (dict [("ok", VBool false);
                                             ("error", VStr (exn_str e))])
          end),
     snd (generate_text_with_model genai py_str name (strip py_isspace s) 256 0.2 w1)).
Proof.
  intros Hd Hs Hsel. apply String.eqb_neq in Hs.
  unfold generate_route.
  rewrite (payload_with_prompt d _ Hd), (prompt_of_str py_isspace d s Hd).
  unfold bind at 1. unfold lift. rewrite Hs.
  unfold bind at 1. unfold emit at 1. unfold bind at 1. unfold try_ at 1.
  rewrite Hsel.
  unfold bind at 1. unfold try_ at 1. unfold bind at 1.
  destruct (generate_text_with_model genai py_str name (strip py_isspace s) 256 0.2 w1)
    as [[out|e] w2]; cbn [fst snd]; [|reflexivity].
  unfold bind at 1. unfold jsonify at 1.
  rewrite success_body_serializable.
  destruct (serializable out); reflexivity.
Qed.

(** X17: When the selection raises, the debug route answers 500 with the stage
    "choose_model" and the selector's message; the listing is the only
    call. *)
Theorem debug_generate_selection_failed (req : value) (p : string) (e : exn)
    (w w1 : world St) :
  prompt_of py_isspace (payload_of req) = Ret p ->
  choose_model genai py_lower None w = (Raise e, w1) ->
  debug_generate' req w =
    (Ret (mkResponse 500 (dict [("ok", VBool false); ("stage", VStr "choose_model");
                                ("error", VStr (exn_str e))])), w1) /\
  call_log w1 = (call_log w ++ [EvListModels])%list.
Proof.
  intros Hp Hsel. split.
  - unfold debug_generate. rewrite Hp. unfold bind at 1. unfold lift.
    unfold bind at 1. unfold try_ at 1. rewrite Hsel. reflexivity.
  - exact (choose_model_log genai py_lower _ _ _ _ Hsel).
Qed.

(** X18: After a selection the debug route makes at most five generation calls,
    all for the selected model with 128 tokens and temperature 0.2; the
    prompt is the stripped one, or "Hello debug" when that is empty. *)
Theorem debug_generate_calls (req : value) (p name : string) (w w1 : world St) :
  prompt_of py_isspace (payload_of req) = Ret p ->
  choose_model genai py_lower None w = (Ret name, w1) ->
  exists evs,
    call_log (snd (debug_generate' req w)) = (call_log w1 ++ evs)%list /\
    Forall (call_for (debug_args name p)) evs /\
    (length evs <= 5)%nat.
Proof.
  intros Hp Hsel. unfold debug_generate.
  rewrite Hp. unfold bind at 1. unfold lift.
  unfold bind at 1. unfold try_ at 1. rewrite Hsel.
  fold (debug_args name p). set (a := debug_args name p).
  destruct (try_call_or_missing py_str py_repr_exn opaque_serializable
              "genai.generate_text" "attribute missing"
              (call_generate_text genai a) w1) as [a1 [E1 [_ S1]]].
  destruct (call_generate_text genai a w1) as [r1 w2] eqn:C1.
  destruct (bounded_call_generate_text genai a _ _ _ C1) as [evs1 [L1 [P1 [N1 _]]]].
  destruct (try_call_or_missing py_str py_repr_exn opaque_serializable
              "genai.generate" "attribute missing"
              (call_generate genai a) w2) as [a2 [E2 [_ S2]]].
  destruct (call_generate genai a w2) as [r2 w3] eqn:C2.
  destruct (bounded_call_generate genai a _ _ _ C2) as [evs2 [L2 [P2 [N2 _]]]].
  destruct (try_call_or_missing py_str py_repr_exn opaque_serializable
              "genai.responses.create" "responses.create missing"
              (call_responses_create genai a) w3) as [a3 [E3 [_ S3]]].
  destruct (call_responses_create genai a w3) as [r3 w4] eqn:C3.
  destruct (bounded_call_responses_create genai a _ _ _ C3) as [evs3 [L3 [P3 [N3 _]]]].
  destruct (try_call_or_missing py_str py_repr_exn opaque_serializable
              "genai.create" "attribute missing"
              (call_create genai a) w4) as [a4 [E4 [_ S4]]].
  destruct (call_create genai a w4) as [r4 w5] eqn:C4.
  destruct (bounded_call_create genai a _ _ _ C4) as [evs4 [L4 [P4 [N4 _]]]].
  cbn [snd] in E1, E2, E3, E4.
  exists (evs1 ++ evs2 ++ evs3 ++ evs4)%list. split; [|split].
  - unfold bind. rewrite E1, E2, E3, E4. unfold jsonify. cbn [app].
    rewrite (debug_body_serializable opaque_serializable name a1 a2 a3 a4 S1 S2 S3 S4).
    unfold ret. cbn [snd]. rewrite L4, L3, L2, L1, <- !app_assoc. reflexivity.
  - repeat (apply Forall_app; split); assumption.
  - rewrite !length_app. lia.
Qed.

(** X19: A string output of at most 500 characters is previewed whole. *)
Theorem output_preview_short (out : value) (s : string) :
  as_str out = Some s ->
  (String.length s <= 500)%nat ->
  output_preview py_str out = s.
Proof.
  intros Hs Hlen. unfold output_preview. rewrite Hs. apply str_take_all. exact Hlen.
Qed.

End RouteEdges.

Lemma generate_route_missing_prompt_witness :
  generate_route genai_second_wins str_fixture opaque_fixture json_text_fixture lower_fixture isspace_fixture VNone w0 =
    (Ret (mkResponse 400 (dict [("ok", VBool false);
                                ("error", VStr "Missing prompt in JSON body.")])), w0) /\
  generate_route genai_second_wins str_fixture opaque_fixture json_text_fixture lower_fixture isspace_fixture
    (VDict (dict [("text", VStr "hi")])) w0 =
    (Ret (mkResponse 400 (dict [("ok", VBool false);
                                ("error", VStr "Missing prompt in JSON body.")])), w0).
Proof.
  split.
  - apply (generate_route_missing_prompt genai_second_wins str_fixture opaque_fixture
             json_text_fixture lower_fixture isspace_fixture VNone ∅ w0); reflexivity.
  - apply (generate_route_missing_prompt genai_second_wins str_fixture opaque_fixture
             json_text_fixture lower_fixture isspace_fixture (VDict (dict [("text", VStr "hi")]))
             (dict [("text", VStr "hi")]) w0); reflexivity.
Defined.

Lemma generate_route_bad_body_witness :
  (exists e, generate_route genai_second_wins str_fixture opaque_fixture json_text_fixture lower_fixture isspace_fixture
               (VList [VInt 1]) w0 = (Raise e, w0) /\ is_AttributeError e = true) /\
  (exists e, generate_route genai_second_wins str_fixture opaque_fixture json_text_fixture lower_fixture isspace_fixture
               (VDict (dict [("prompt", VInt 5)])) w0 = (Raise e, w0) /\
             is_AttributeError e = true).
Proof.
  split.
  - apply (generate_route_bad_body genai_second_wins str_fixture opaque_fixture
             json_text_fixture lower_fixture isspace_fixture (VList [VInt 1]) w0).
    left. reflexivity.
  - apply (generate_route_bad_body genai_second_wins str_fixture opaque_fixture
             json_text_fixture lower_fixture isspace_fixture (VDict (dict [("prompt", VInt 5)])) w0).
    right. exists (dict [("prompt", VInt 5)]), (VInt 5). repeat split.
Defined.

Lemma generate_route_selection_failed_witness :
  generate_route genai_listing_fails str_fixture opaque_fixture json_text_fixture lower_fixture isspace_fixture
    (VDict (dict [("prompt", VStr " hi ")])) w0 =
    (Ret (mkResponse 500
            (dict [("ok", VBool false);
                   ("error", VStr "Model selection failed: Failed to list models: network down")])),
     mkWorld tt [EvLogInfo 2; EvListModels]).
Proof.
  refine (generate_route_selection_failed genai_listing_fails str_fixture opaque_fixture
            json_text_fixture lower_fixture isspace_fixture (dict [("prompt", VStr " hi ")]) " hi " w0 eq_refl _).
  vm_compute. discriminate.
Defined.

Lemma generate_route_after_selection_witness :
  generate_route genai_second_wins str_fixture opaque_fixture json_text_fixture lower_fixture isspace_fixture
    (VDict (dict [("prompt", VStr " hi ")])) w0 =
    (Ret (mkResponse 200 (dict [("ok", VBool true); ("model_used", VStr "Model-B");
                                ("output", VStr "two")])),
     mkWorld tt [EvLogInfo 2; EvListModels; EvGenerateText args_hi; EvGenerate args_hi]).
Proof.
  refine (generate_route_after_selection genai_second_wins str_fixture opaque_fixture
            json_text_fixture lower_fixture isspace_fixture (dict [("prompt", VStr " hi ")]) " hi " "Model-B" w0
            (mkWorld tt [EvLogInfo 2; EvListModels]) eq_refl _ eq_refl).
  vm_compute. discriminate.
Defined.

Lemma debug_generate_selection_failed_witness :
  debug_generate genai_no_models str_fixture repr_fixture opaque_fixture json_text_fixture lower_fixture isspace_fixture
    (VDict (dict [("prompt", VStr "hi")])) w0 =
    (Ret (mkResponse 500
            (dict [("ok", VBool false); ("stage", VStr "choose_model");
                   ("error", VStr "No models returned by the API (empty list).")])),
     mkWorld tt [EvListModels]) /\
  call_log (mkWorld tt [EvListModels]) = (call_log w0 ++ [EvListModels])%list.
Proof.
  apply (debug_generate_selection_failed genai_no_models str_fixture repr_fixture
           opaque_fixture json_text_fixture lower_fixture isspace_fixture (VDict (dict [("prompt", VStr "hi")])) "hi"
           (mkExn KRuntimeError "No models returned by the API (empty list).")
           w0 (mkWorld tt [EvListModels])); reflexivity.
Defined.

Lemma debug_generate_calls_witness :
  exists evs,
    call_log (snd (debug_generate genai_second_wins str_fixture repr_fixture opaque_fixture
                     json_text_fixture lower_fixture isspace_fixture (VDict (dict [("prompt", VStr "  ")])) w0)) =
      (call_log (mkWorld tt [EvListModels]) ++ evs)%list /\
    Forall (call_for (mkGenArgs "Model-B" "Hello debug" 128 0.2)) evs /\
    (length evs <= 5)%nat.
Proof.
  apply (debug_generate_calls genai_second_wins str_fixture repr_fixture opaque_fixture
           json_text_fixture lower_fixture isspace_fixture (VDict (dict [("prompt", VStr "  ")])) "" "Model-B"
           w0 (mkWorld tt [EvListModels])); reflexivity.
Defined.

Lemma output_preview_short_witness :
  output_preview str_fixture (VStr "two") = "two".
Proof.
  apply (output_preview_short str_fixture (VStr "two") "two"); [reflexivity|].
  simpl. lia.
Defined.

(** ** Properties of the listing route, the static route and the start *)

Lemma prefix_app (p rest : string) : String.prefix p (p ++ rest) = true.
Proof.
  induction p as [|c p IH]; simpl; [destruct rest; reflexivity|].
  destruct (ascii_dec c c) as [_|Hne]; [exact IH|contradiction].
Qed.

Section SurfaceProperties.
Context {St : Type}.
Variable genai : client St.
Variable opaque_serializable : string -> bool.
Variable json_error_text : value -> string.
Variable displayName_of : model_desc -> option string.
Variable static_folder : string.
Variable os_path_join : string -> string -> string.
Variable os_path_exists : string -> bool.
Variable py_lower : string -> string.

Abbreviation serializable := (json_serializable opaque_serializable).
Abbreviation entry := (model_entry displayName_of).
Abbreviation list_models_route' :=
  (list_models_route genai opaque_serializable json_error_text displayName_of).
Abbreviation serve_frontend' :=
  (serve_frontend (St := St) opaque_serializable json_error_text static_folder
     os_path_join os_path_exists).

Lemma tags_serializable (caps : list string) :
  forallb serializable (map VStr caps) = true.
Proof. induction caps as [|c caps IH]; simpl; [reflexivity|exact IH]. Qed.

Lemma model_entry_serializable (m : model_desc) : serializable (entry m) = true.
Proof.
  unfold model_entry. apply json_serializable_dict.
  unfold dict. cbn [list_to_map foldr fst snd].
  apply map_Forall_insert_2; [reflexivity|].
  apply map_Forall_insert_2; [reflexivity|].
  apply map_Forall_insert_2; [|apply map_Forall_empty].
  simpl. apply tags_serializable.
Qed.

Lemma models_body_serializable (models : list model_desc) :
  serializable (VDict (dict [("ok", VBool true);
                             ("models", VList (map entry models))])) = true.
Proof.
  apply json_serializable_dict. unfold dict. cbn [list_to_map foldr fst snd].
  apply map_Forall_insert_2; [reflexivity|].
  apply map_Forall_insert_2; [|apply map_Forall_empty].
  change (forallb serializable (map entry models) = true).
  induction models as [|m models IH]; cbn [map forallb]; [reflexivity|].
  rewrite model_entry_serializable. exact IH.
Qed.

Lemma list_models_route_run (w : world St) :
  list_models_route' w =
  (Ret (match fst (list_models genai (up_state w)) with
        | Ret models =>
            mkResponse 200 (dict [("ok", VBool true);
                                  ("models", VList (map entry models))])
        | Raise e =>
            mkResponse 500 (dict [("ok", VBool false);
                                  ("error", VStr ("Failed to list models: " ++ exn_str e))])
        end),
   mkWorld (snd (list_models genai (up_state w))) (call_log w ++ [EvListModels])).
Proof.
  unfold list_models_route. unfold bind at 1. unfold try_ at 1. unfold bind at 1.
  rewrite get_models_list_run.
  destruct (list_models genai (up_state w)) as [[models|e] s']; cbn [fst snd].
  - unfold bind, jsonify. rewrite models_body_serializable. reflexivity.
  - reflexivity.
Qed.

(** X20: The listing route never raises and calls the upstream once: it answers
    200 with one entry per listed descriptor (an empty listing gives an empty
    list, not an error), and 500 with "Failed to list models: ..." when the
    listing raised. *)
Theorem list_models_route_total (w : world St) :
  exists resp,
    list_models_route' w =
      (Ret resp,
       mkWorld (snd (list_models genai (up_state w))) (call_log w ++ [EvListModels])) /\
    match fst (list_models genai (up_state w)) with
    | Ret models =>
        status resp = 200 /\ json_body resp !! "ok" = Some (VBool true) /\
        json_body resp !! "error" = None /\
        exists entries, json_body resp !! "models" = Some (VList entries) /\
                        length entries = length models
    | Raise e =>
        status resp = 500 /\ json_body resp !! "ok" = Some (VBool false) /\
        json_body resp !! "models" = None /\
        json_body resp !! "error" = Some (VStr ("Failed to list models: " ++ exn_str e))
    end.
Proof.
  eexists. split; [apply list_models_route_run|].
  destruct (fst (list_models genai (up_state w))) as [models|e].
  - repeat split. eexists. split; [reflexivity|]. apply length_map.
  - repeat split.
Qed.

(** X21: The entries keep the upstream's order; each carries the descriptor's
    name as the selector reads it, its display name or "" and its tags or
    an empty list. *)
Theorem list_models_route_entries (models : list model_desc) (s' : St) (w : world St) :
  list_models genai (up_state w) = (Ret models, s') ->
  exists entries,
    fst (list_models_route' w) =
      Ret (mkResponse 200 (dict [("ok", VBool true); ("models", VList entries)])) /\
    forall i m, models !! i = Some m ->
      exists ed, entries !! i = Some (VDict ed) /\
        ed !! "name" = Some (VStr (name_of m)) /\
        ed !! "displayName" = Some (VStr (default "" (displayName_of m))) /\
        ed !! "capabilities" = Some (VList (map VStr (default [] (m_capabilities m)))).
Proof.
  intros Hlist. exists (map entry models). split.
  - rewrite list_models_route_run, Hlist. reflexivity.
  - intros i m Hi. eexists. split.
    + rewrite list_lookup_fmap, Hi. reflexivity.
    + repeat split.
Qed.

(** X22: Whatever name the selector returns is the name of an entry the listing
    route gives for the same upstream state. *)
Theorem list_models_route_lists_choice (preferred_list : option (list string))
    (n : string) (w w1 : world St) :
  choose_model genai py_lower preferred_list w = (Ret n, w1) ->
  exists entries i ed,
    list_models_route' w =
      (Ret (mkResponse 200 (dict [("ok", VBool true); ("models", VList entries)])), w1) /\
    entries !! i = Some (VDict ed) /\
    ed !! "name" = Some (VStr n).
Proof.
  intros Hsel.
  assert (H : exists models, list_models genai (up_state w) =
                (Ret models, up_state w1) /\
              w1 = mkWorld (up_state w1) (call_log w ++ [EvListModels]) /\
              n ∈ map name_of models).
  { revert Hsel. unfold choose_model, bind. rewrite get_models_list_run.
    destruct (list_models genai (up_state w)) as [[[|m ms]|e] s']; cbn [fst snd];
      try discriminate.
    destruct (pick_preferred py_lower _ _) as [n1|] eqn:Hp.
    - intros [= <- <-]. exists (m :: ms). repeat split.
      exact (pick_preferred_elem _ _ _ _ Hp).
    - destruct (pick_capable py_lower _) as [n2|] eqn:Hc.
      + intros [= <- <-]. exists (m :: ms). repeat split.
        exact (pick_capable_elem _ _ _ Hc).
      + intros [= <- <-]. exists (m :: ms). repeat split. left. }
  destruct H as [models [Hlist [Hw1 Hn]]].
  apply list_elem_of_fmap in Hn. destruct Hn as [m [-> Hm]].
  apply list_elem_of_lookup in Hm. destruct Hm as [i Hi].
  exists (map entry models), i. eexists. split; [|split].
  - rewrite list_models_route_run, Hlist. cbn [fst snd]. rewrite <- Hw1. reflexivity.
  - rewrite list_lookup_fmap, Hi. reflexivity.
  - reflexivity.
Qed.

(** X23: A path that begins with "api/" (or with "api" and a backslash) gets the
    JSON 404 answer whatever the static folder holds; no file is sent. *)
Theorem serve_frontend_api_not_found (rest : string) (w : world St) :
  serve_frontend' ("api/" ++ rest) w =
    (Ret (JsonReply (mkResponse 404 (dict [("ok", VBool false);
                                           ("error", VStr "Not Found")]))), w) /\
  serve_frontend' ("api\" ++ rest) w =
    (Ret (JsonReply (mkResponse 404 (dict [("ok", VBool false);
                                           ("error", VStr "Not Found")]))), w).
Proof.
  split; unfold serve_frontend, is_api_path.
  - rewrite (prefix_app "api/" rest). reflexivity.
  - rewrite (prefix_app "api\" rest), orb_true_r. reflexivity.
Qed.

(** X24: The static route never raises and leaves the world alone.  A file it
    sends comes from the static folder and is "index.html" or the requested
    path itself; the latter only for a non-empty path outside the API
    prefix that exists under the static folder. *)
Theorem serve_frontend_reply (path : string) (w : world St) :
  snd (serve_frontend' path w) = w /\
  match fst (serve_frontend' path w) with
  | Ret (JsonReply r) => is_api_path path = true /\ status r = 404
  | Ret (SendFile directory filename) =>
      is_api_path path = false /\ directory = static_folder /\
      (filename = "index.html" \/
       (filename = path /\ path <> "" /\
        os_path_exists (os_path_join static_folder path) = true))
  | Raise _ => False
  end.
Proof.
  unfold serve_frontend. destruct (is_api_path path) eqn:Hapi.
  - unfold bind.
    rewrite (jsonify_error_body opaque_serializable json_error_text "Not Found" w).
    unfold ret. cbn [fst snd]. repeat split.
  - destruct (String.eqb path "") eqn:Hempty; cbn [negb andb].
    + split; [reflexivity|]. repeat split. left. reflexivity.
    + destruct (os_path_exists (os_path_join static_folder path)) eqn:Hex.
      * split; [reflexivity|]. repeat split. right.
        split; [reflexivity|]. split; [|reflexivity].
        apply String.eqb_neq. exact Hempty.
      * split; [reflexivity|]. repeat split. left. reflexivity.
Qed.

(** X25: The module starts with the key [k] exactly when [k] is not empty and is
    GEMINI_API_KEY, or GEMINI_API_KEY is unset or empty and [k] is
    GOOGLE_API_KEY; whether [configure] raises makes no difference. *)
Theorem module_init_key (env : gmap string string)
    (configure : string -> upstream St unit) (s : St) (k : string) :
  fst (module_init env configure s) = Ret k <->
  k <> "" /\
  (getenv env "GEMINI_API_KEY" = Some k \/
   ((getenv env "GEMINI_API_KEY" = None \/ getenv env "GEMINI_API_KEY" = Some "") /\
    getenv env "GOOGLE_API_KEY" = Some k)).
Proof.
  assert (Hfst : fst (module_init env configure s) = load_api_key env).
  { unfold module_init. destruct (load_api_key env) as [key|e]; [|reflexivity].
    destruct (configure key s) as [rc s1]. reflexivity. }
  rewrite Hfst. unfold load_api_key, or_env.
  destruct (getenv env "GEMINI_API_KEY") as [[|c1 r1]|];
    destruct (getenv env "GOOGLE_API_KEY") as [[|c2 r2]|];
    (split;
     [intros H;
      first [discriminate H
            |injection H as <-; split; [discriminate|intuition congruence]]
     |intuition congruence]).
Qed.

End SurfaceProperties.

Lemma list_models_route_entries_witness :
  exists entries,
    fst (list_models_route genai_capable_second opaque_fixture json_text_fixture
           no_display_name w0) =
      Ret (mkResponse 200 (dict [("ok", VBool true); ("models", VList entries)])) /\
    forall i m, [model_plain; model_chat; model_embed] !! i = Some m ->
      exists ed, entries !! i = Some (VDict ed) /\
        ed !! "name" = Some (VStr (name_of m)) /\
        ed !! "displayName" = Some (VStr (default "" (no_display_name m))) /\
        ed !! "capabilities" = Some (VList (map VStr (default [] (m_capabilities m)))).
Proof.
  apply (list_models_route_entries genai_capable_second opaque_fixture json_text_fixture
           no_display_name [model_plain; model_chat; model_embed] tt w0).
  reflexivity.
Defined.

Lemma list_models_route_lists_choice_witness :
  exists entries i ed,
    list_models_route genai_capable_second opaque_fixture json_text_fixture
      no_display_name w0 =
      (Ret (mkResponse 200 (dict [("ok", VBool true); ("models", VList entries)])),
       mkWorld tt [EvListModels]) /\
    entries !! i = Some (VDict ed) /\
    ed !! "name" = Some (VStr "Chat-Bison").
Proof.
  apply (list_models_route_lists_choice genai_capable_second opaque_fixture
           json_text_fixture no_display_name lower_fixture None "Chat-Bison" w0
           (mkWorld tt [EvListModels])).
  reflexivity.
Defined.

Example module_init_google_only :
  module_init env_google_only configure_fails tt = (Ret "g-key", tt).
Proof. reflexivity. Qed.

Example serve_frontend_existing_and_missing :
  serve_frontend opaque_fixture json_text_fixture "static" join_fixture only_logo_exists
    "logo.png" w0 = (Ret (SendFile "static" "logo.png"), w0) /\
  serve_frontend opaque_fixture json_text_fixture "static" join_fixture only_logo_exists
    "app/settings" w0 = (Ret (SendFile "static" "index.html"), w0) /\
  serve_frontend opaque_fixture json_text_fixture "static" join_fixture only_logo_exists
    "" w0 = (Ret (SendFile "static" "index.html"), w0).
Proof. repeat split. Qed.
